(** * Office Assistant prototype: a shallow embedding and its properties

    The Python modules [recorder.py], [transcriber.py], [summarizer.py],
    [tracker.py] and [main.py] are embedded as functions of a small
    state-and-exception monad over an explicit [World] (file system, event
    trace, standard output, clock).  Everything the program obtains from
    outside (microphone, screen, window manager, Whisper, the chat API, the
    process environment, the time each blocking call takes) is read from an
    [Env] record, so that every function can be run on a concrete
    environment.

    Conventions.
    - Python [int] is [Z].  Instants and time spans (Python floats) are
      integer numbers of clock ticks; [hz] ticks make one second.
    - A call into a library or into the environment [Returns] a value or
      [Raises] an exception.  A computation of the program ends in [Ok],
      in [Raise], or in [OutOfFuel] when its loop has not finished within
      the fuel it was given; the last is not an outcome of the program but
      the sign that more fuel is needed.
    - Each thread has its own clock; the file system and the trace are
      shared.  The two capture tasks touch different files, and their
      events are laid down audio first. *)

From Stdlib Require Import ZArith Lia Ascii String.
From Stdlib Require QArith_base.
From stdpp Require Import base option list gmap strings pretty.

Open Scope Z_scope.

(** ** Values, exceptions, outcomes *)

(** Dynamically typed Python values as they occur in the two API results. *)
#[local] Set Warnings "-register-all".
Inductive pyval : Type :=
| PNone
| PInt (z : Z)
| PStr (s : string)
| PList (l : list pyval)
| PDict (d : list (string * pyval)).

Inductive exn : Type :=
| RuntimeError (msg : string)
| ValueError
| TypeError
| KeyError (key : string)
| IndexError
| AttributeError
| OSError (path : string)
| WaveError (msg : string)
| PortAudioError
| ScreenshotError
| WindowError
| WhisperError
| ApiError.

Inductive outcome (A : Type) : Type :=
| Ok (a : A)
| Raise (e : exn)
| OutOfFuel.
Arguments Ok {A} a.
Arguments Raise {A} e.
Arguments OutOfFuel {A}.

(** What a call into a library or into the environment delivers. *)
Inductive result (A : Type) : Type :=
| Returns (a : A)
| Raises (e : exn).
Arguments Returns {A} a.
Arguments Raises {A} e.

Global Instance result_ret : MRet result := fun A a => Returns a.

Global Instance result_bind : MBind result := fun A B k r =>
  match r with
  | Returns a => k a
  | Raises e => Raises e
  end.

(** ** Files *)

(** A WAV container, by the fields of its [fmt ] chunk and its [data] chunk. *)
Record Wav : Type := {
  wav_nchannels : Z;
  wav_sampwidth : Z;
  wav_framerate : Z;
  wav_nframes : Z;
  wav_data : list Z            (* bytes *)
}.

Definition pixel : Type := (Z * Z * Z)%type.
Definition image : Type := list pixel.

Record Avi : Type := {
  avi_fourcc : Z;
  avi_fps : Z;
  avi_size : Z * Z;
  avi_frames : list image
}.

(** One sample of the activity log, [{"timestamp": ..., "title": ...}]. *)
Record Sample : Type := {
  timestamp : Z;
  title : string
}.

Inductive content : Type :=
| CText (s : string)
| CWav (w : Wav)
| CAvi (v : Avi)
| CJson (records : list Sample).

(** ** The world *)

Record ApiRequest : Type := {
  rq_key : option string;
  rq_model : string;
  rq_messages : list (string * pyval);   (* role, content *)
  rq_max_tokens : Z;
  rq_temperature : QArith_base.Q
}.

Inductive event : Type :=
| EvOpenW (path : string)      (* a file is created or truncated for writing *)
| EvRead (path : string)       (* a file is opened and read *)
| EvRecord                     (* the microphone is recorded *)
| EvShot                       (* a screenshot is taken *)
| EvLoadModel (name : string)  (* a Whisper model is loaded *)
| EvApi (rq : ApiRequest)      (* the chat-completion API is called *)
| EvQuery.                     (* the active window is queried *)

Record World : Type := {
  files : gmap string content;
  trace : list event;
  stdout : list string;
  now : Z;
  n_shot : nat;
  n_query : nat;
  n_sleep : nat;
  openai_api_key : option string
}.

Record Window : Type := { win_title : string }.

Record Env : Type := {
  hz : Z;                                   (* clock ticks per second *)
  environ : gmap string string;             (* os.environ *)
  writable : string -> bool;                (* can this path be created? *)
  (* sounddevice *)
  mic_ok : Z -> Z -> bool;                  (* sample rate, channels accepted *)
  mic_sample : nat -> nat -> Z;             (* frame, channel *)
  rec_time : Z;                             (* ticks until sd.wait returns *)
  (* pyautogui and cv2 *)
  screen_size : Z * Z;
  codec_ok : bool;
  screenshot : nat -> result image;        (* k-th screenshot *)
  shot_time : nat -> Z;                     (* ticks the k-th capture takes *)
  (* whisper *)
  whisper_load : string -> result unit;
  whisper_run : content -> result (gmap string pyval);
  (* openai *)
  chat_create : ApiRequest -> result pyval;
  (* pygetwindow and time *)
  active_window : nat -> result (option Window);  (* k-th query *)
  query_time : nat -> Z;                    (* ticks the k-th query takes *)
  oversleep : nat -> Z                      (* extra ticks of the k-th sleep *)
}.

Definition set_files (f : gmap string content) (w : World) : World :=
  {| files := f; trace := trace w; stdout := stdout w; now := now w;
     n_shot := n_shot w; n_query := n_query w; n_sleep := n_sleep w;
     openai_api_key := openai_api_key w |}.

Definition set_trace (t : list event) (w : World) : World :=
  {| files := files w; trace := t; stdout := stdout w; now := now w;
     n_shot := n_shot w; n_query := n_query w; n_sleep := n_sleep w;
     openai_api_key := openai_api_key w |}.

Definition set_stdout (o : list string) (w : World) : World :=
  {| files := files w; trace := trace w; stdout := o; now := now w;
     n_shot := n_shot w; n_query := n_query w; n_sleep := n_sleep w;
     openai_api_key := openai_api_key w |}.

Definition set_now (t : Z) (w : World) : World :=
  {| files := files w; trace := trace w; stdout := stdout w; now := t;
     n_shot := n_shot w; n_query := n_query w; n_sleep := n_sleep w;
     openai_api_key := openai_api_key w |}.

Definition set_n_shot (n : nat) (w : World) : World :=
  {| files := files w; trace := trace w; stdout := stdout w; now := now w;
     n_shot := n; n_query := n_query w; n_sleep := n_sleep w;
     openai_api_key := openai_api_key w |}.

Definition set_n_query (n : nat) (w : World) : World :=
  {| files := files w; trace := trace w; stdout := stdout w; now := now w;
     n_shot := n_shot w; n_query := n; n_sleep := n_sleep w;
     openai_api_key := openai_api_key w |}.

Definition set_n_sleep (n : nat) (w : World) : World :=
  {| files := files w; trace := trace w; stdout := stdout w; now := now w;
     n_shot := n_shot w; n_query := n_query w; n_sleep := n;
     openai_api_key := openai_api_key w |}.

Definition set_openai_api_key (k : option string) (w : World) : World :=
  {| files := files w; trace := trace w; stdout := stdout w; now := now w;
     n_shot := n_shot w; n_query := n_query w; n_sleep := n_sleep w;
     openai_api_key := k |}.

(** ** The monad *)

Definition M (A : Type) : Type := World -> outcome A * World.

Global Instance M_ret : MRet M := fun A a w => (Ok a, w).

Global Instance M_bind : MBind M := fun A B k c w =>
  match c w with
  | (Ok a, w') => k a w'
  | (Raise e, w') => (Raise e, w')
  | (OutOfFuel, w') => (OutOfFuel, w')
  end.

Definition raise {A} (e : exn) : M A := fun w => (Raise e, w).
Definition out_of_fuel {A} : M A := fun w => (OutOfFuel, w).
Definition get : M World := fun w => (Ok w, w).
Definition modify (f : World -> World) : M unit := fun w => (Ok tt, f w).

(** A result delivered by the environment. *)
Definition lift {A} (r : result A) : M A :=
  fun w => match r with
           | Returns a => (Ok a, w)
           | Raises e => (Raise e, w)
           end.

Definition emit (e : event) : M unit :=
  modify (fun w => set_trace (trace w ++ [e]) w).

Definition elapse (dt : Z) : M unit :=
  modify (fun w => set_now (now w + dt) w).

(** The line feed of the f-strings. *)
Definition nl : string := String (ascii_of_nat 10) EmptyString.

(** [print(s)] *)
Definition print (s : string) : M unit :=
  modify (fun w => set_stdout (stdout w ++ [s]) w).

(** [for _ in range(n): body] *)
Fixpoint for_range (n : nat) (body : M unit) : M unit :=
  match n with
  | O => mret tt
  | S n' => body ;; for_range n' body
  end.

(** [int(x)] and [round(x)] of a Python [int] are the identity. *)
Definition py_int (x : Z) : Z := x.
Definition py_round (x : Z) : Z := x.

(** [range(n)] has [max n 0] elements. *)
Definition range_len (n : Z) : nat := Z.to_nat n.

(** ** recorder.py *)

Section Recorder.
Context (env : Env).

(** [sd.rec(frames, samplerate=fs, channels=channels, dtype='int16')]: a
    NumPy array of shape [(frames, channels)] of 16-bit samples.  A negative
    frame count is refused by NumPy, other settings by the device. *)
Definition wrap16 (s : Z) : Z := (s + 32768) mod 65536 - 32768.

Definition sd_rec (frames fs channels : Z) : M (list (list Z)) :=
  if frames <? 0 then raise ValueError
  else if negb (mic_ok env fs channels) then raise PortAudioError
  else
    emit EvRecord ;;
    mret (map (fun i => map (fun c => wrap16 (mic_sample env i c))
                            (seq 0 (Z.to_nat channels)))
              (seq 0 (Z.to_nat frames))).

(** [sd.wait()] blocks until the recording is complete. *)
Definition sd_wait : M unit := elapse (rec_time env).

(** [audio.tobytes()]: two bytes per sample, little-endian two's complement. *)
Definition int16_bytes (s : Z) : list Z :=
  [Z.land s 255; Z.land (Z.shiftr s 8) 255].

Definition tobytes (audio : list (list Z)) : list Z :=
  concat (map (fun frame => concat (map int16_bytes frame)) audio).

(** The [wave.Wave_write] object. *)
Record Wave_write : Type := {
  ww_path : string;
  ww_nchannels : Z;
  ww_sampwidth : Z;
  ww_framerate : Z
}.

(** [wave.open(filename, 'wb')] creates (or truncates) the file. *)
Definition open_for_writing (path : string) (c : content) : M unit :=
  if writable env path then
    emit (EvOpenW path) ;;
    modify (fun w => set_files (<[path := c]> (files w)) w)
  else raise (OSError path).

Definition wave_open (filename : string) : M Wave_write :=
  open_for_writing filename (CText "") ;;
  mret {| ww_path := filename; ww_nchannels := 0;
          ww_sampwidth := 0; ww_framerate := 0 |}.

Definition setnchannels (wf : Wave_write) (n : Z) : M Wave_write :=
  if n <? 1 then raise (WaveError "bad # of channels")
  else mret {| ww_path := ww_path wf; ww_nchannels := n;
               ww_sampwidth := ww_sampwidth wf;
               ww_framerate := ww_framerate wf |}.

Definition setsampwidth (wf : Wave_write) (n : Z) : M Wave_write :=
  if (n <? 1) || (4 <? n) then raise (WaveError "bad sample width")
  else mret {| ww_path := ww_path wf; ww_nchannels := ww_nchannels wf;
               ww_sampwidth := n;
               ww_framerate := ww_framerate wf |}.

Definition setframerate (wf : Wave_write) (r : Z) : M Wave_write :=
  if r <=? 0 then raise (WaveError "bad frame rate")
  else mret {| ww_path := ww_path wf; ww_nchannels := ww_nchannels wf;
               ww_sampwidth := ww_sampwidth wf;
               ww_framerate := py_int (py_round r) |}.

(** [wf.writeframes(data)] followed by the [close()] of the [with] block:
    the header is written with the number of frames found in [data]. *)
Definition writeframes (wf : Wave_write) (data : list Z) : M unit :=
  if ww_nchannels wf =? 0 then raise (WaveError "# channels not specified")
  else if ww_sampwidth wf =? 0 then raise (WaveError "sample width not specified")
  else if ww_framerate wf =? 0 then raise (WaveError "sampling rate not specified")
  else
    modify (fun w => set_files (<[ww_path wf :=
      CWav {| wav_nchannels := ww_nchannels wf;
              wav_sampwidth := ww_sampwidth wf;
              wav_framerate := ww_framerate wf;
              wav_nframes := Z.of_nat (length data)
                             / (ww_sampwidth wf * ww_nchannels wf);
              wav_data := data |}]> (files w)) w).

Definition record_audio (filename : string) (duration fs channels : Z) : M unit :=
  print ("Recording audio to " +:+ filename +:+ " for "
         +:+ pretty duration +:+ " seconds ...") ;;
  audio ← sd_rec (py_int (duration * fs)) fs channels ;
  sd_wait ;;
  wf ← wave_open filename ;
  wf ← setnchannels wf channels ;
  wf ← setsampwidth wf 2 ;
  wf ← setframerate wf fs ;
  writeframes wf (tobytes audio) ;;
  print ("Audio saved: " +:+ filename).

(** [cv2.VideoWriter_fourcc(c1, c2, c3, c4)] *)
Definition code (c : ascii) : Z := Z.of_nat (nat_of_ascii c).

Definition VideoWriter_fourcc (c1 c2 c3 c4 : ascii) : Z :=
  Z.lor (Z.lor (code c1) (Z.shiftl (code c2) 8))
        (Z.lor (Z.shiftl (code c3) 16) (Z.shiftl (code c4) 24)).

Record VideoWriter : Type := {
  vw_path : string;
  vw_opened : bool
}.

(** [cv2.VideoWriter(filename, fourcc, fps, size)] never raises: when the
    file or the codec cannot be opened, the writer is left closed and every
    later [write] is ignored. *)
Definition VideoWriter_open (filename : string) (fourcc fps : Z) (size : Z * Z)
  : M VideoWriter :=
  if writable env filename && codec_ok env then
    emit (EvOpenW filename) ;;
    modify (fun w => set_files (<[filename :=
      CAvi {| avi_fourcc := fourcc; avi_fps := fps;
              avi_size := size; avi_frames := [] |}]> (files w)) w) ;;
    mret {| vw_path := filename; vw_opened := true |}
  else mret {| vw_path := filename; vw_opened := false |}.

Definition add_frame (frame : image) (c : content) : content :=
  match c with
  | CAvi v => CAvi {| avi_fourcc := avi_fourcc v; avi_fps := avi_fps v;
                      avi_size := avi_size v;
                      avi_frames := avi_frames v ++ [frame] |}
  | _ => c
  end.

Definition VideoWriter_write (out : VideoWriter) (frame : image) : M unit :=
  if vw_opened out then
    modify (fun w => set_files (alter (add_frame frame) (vw_path out) (files w)) w)
  else mret tt.

Definition VideoWriter_release (out : VideoWriter) : M unit := mret tt.

(** [pyautogui.screenshot()] *)
Definition pyautogui_screenshot : M image :=
  w ← get ;
  modify (set_n_shot (S (n_shot w))) ;;
  elapse (shot_time env (n_shot w)) ;;
  emit EvShot ;;
  lift (screenshot env (n_shot w)).

(** [cv2.cvtColor(np.array(img), cv2.COLOR_BGR2RGB)] swaps the first and the
    third channel of every pixel. *)
Definition cvtColor_BGR2RGB (img : image) : image :=
  map (fun '(a, b, c) => (c, b, a)) img.

Definition record_screen (filename : string) (duration fps : Z) : M unit :=
  let screen_size := screen_size env in
  let fourcc := VideoWriter_fourcc "X" "V" "I" "D" in
  out ← VideoWriter_open filename fourcc fps screen_size ;
  print ("Recording screen to " +:+ filename +:+ " for "
         +:+ pretty duration +:+ " seconds ...") ;;
  for_range (range_len (py_int (duration * fps)))
    (img ← pyautogui_screenshot ;
     let frame := cvtColor_BGR2RGB img in
     VideoWriter_write out frame) ;;
  VideoWriter_release out ;;
  print ("Screen recording saved: " +:+ filename).

(** [threading.Thread(target=...).start()]: the target runs on the shared
    file system and trace with a clock of its own, started at the instant of
    [start()]; the thread object keeps the instant at which the target ends.
    An exception that ends the target ends the thread only: it is reported
    by the interpreter's hook and never reaches the thread that joins. *)
Record Thread : Type := { t_finish : Z }.

Definition Thread_start {A} (target : M A) : M Thread :=
  fun w =>
    match target w with
    | (OutOfFuel, w') => (OutOfFuel, w')
    | (_, w') => (Ok {| t_finish := now w' |}, set_now (now w) w')
    end.

(** [t.join()] returns when the thread has finished. *)
Definition Thread_join (t : Thread) : M unit :=
  modify (fun w => set_now (Z.max (now w) (t_finish t)) w).

(** The defaults of the two signatures. *)
Definition default_fs : Z := 44100.
Definition default_channels : Z := 2.
Definition default_fps : Z := 20.

(** The body of [record_audio_and_screen].  The two targets are the module
    globals [record_audio] and [record_screen], looked up when the function
    runs; they are parameters here so that other capture tasks can stand in
    for them. *)
Definition record_audio_and_screen_with
    (record_audio record_screen : string -> Z -> M unit)
    (audio_file video_file : string) (duration : Z) : M (string * string) :=
  audio_thread ← Thread_start (record_audio audio_file duration) ;
  video_thread ← Thread_start (record_screen video_file duration) ;
  Thread_join audio_thread ;;
  Thread_join video_thread ;;
  mret (audio_file, video_file).

Definition record_audio_and_screen
    (audio_file video_file : string) (duration : Z) : M (string * string) :=
  record_audio_and_screen_with
    (fun filename duration =>
       record_audio filename duration default_fs default_channels)
    (fun filename duration =>
       record_screen filename duration default_fps)
    audio_file video_file duration.

End Recorder.

(** ** transcriber.py *)

Section Transcriber.
Context (env : Env).

(** [whisper.load_model(model_name)] *)
Definition whisper_load_model (model_name : string) : M unit :=
  emit (EvLoadModel model_name) ;;
  lift (whisper_load env model_name).

(** [model.transcribe(audio_path)] decodes the file found at [audio_path]. *)
Definition model_transcribe (audio_path : string) : M (gmap string pyval) :=
  w ← get ;
  match files w !! audio_path with
  | None => raise (OSError audio_path)
  | Some c => emit (EvRead audio_path) ;; lift (whisper_run env c)
  end.

(** [d.get(key, dflt)] *)
Definition dict_get (d : gmap string pyval) (key : string) (dflt : pyval) : pyval :=
  default dflt (d !! key).

Definition transcribe (audio_path model_name : string) : M pyval :=
  whisper_load_model model_name ;;
  result ← model_transcribe audio_path ;
  mret (dict_get result "text" (PStr "")).

End Transcriber.

(** ** summarizer.py *)

Section Summarizer.
Context (env : Env).

(** [os.getenv(name)] *)
Definition os_getenv (name : string) : M (option string) :=
  mret (environ env !! name).

(** [not x] for [x : Optional[str]]: [None] and the empty string are falsy. *)
Definition py_not (x : option string) : bool :=
  match x with
  | None => true
  | Some s => bool_decide (s = "")
  end.

(** [openai.ChatCompletion.create(...)], with the key held by the module. *)
Definition ChatCompletion_create
    (model : string) (messages : list (string * pyval)) (max_tokens : Z)
    (temperature : QArith_base.Q) : M pyval :=
  w ← get ;
  let rq := {| rq_key := openai_api_key w; rq_model := model;
               rq_messages := messages; rq_max_tokens := max_tokens;
               rq_temperature := temperature |} in
  emit (EvApi rq) ;;
  lift (chat_create env rq).

Fixpoint assoc (key : string) (d : list (string * pyval)) : option pyval :=
  match d with
  | [] => None
  | (k, v) :: d' => if bool_decide (k = key) then Some v else assoc key d'
  end.

(** [v[k]] *)
Definition getitem (v k : pyval) : result pyval :=
  match v, k with
  | PDict d, PStr key =>
      match assoc key d with
      | Some x => Returns x
      | None => Raises (KeyError key)
      end
  | PDict d, _ => Raises (KeyError "")
  | PList l, PInt i =>
      let j := if i <? 0 then Z.of_nat (length l) + i else i in
      if j <? 0 then Raises IndexError
      else match l !! Z.to_nat j with
           | Some x => Returns x
           | None => Raises IndexError
           end
  | PStr s, PInt i =>
      let j := if i <? 0 then Z.of_nat (String.length s) + i else i in
      if j <? 0 then Raises IndexError
      else match String.get (Z.to_nat j) s with
           | Some c => Returns (PStr (String c EmptyString))
           | None => Raises IndexError
           end
  | _, _ => Raises TypeError
  end.

(** [str.isspace] on the ASCII range. *)
Definition isspace (c : ascii) : bool :=
  let n := nat_of_ascii c in
  ((9 <=? n) && (n <=? 13) || (28 <=? n) && (n <=? 32))%nat.

Fixpoint lstrip (s : string) : string :=
  match s with
  | EmptyString => EmptyString
  | String c s' => if isspace c then lstrip s' else s
  end.

Fixpoint rstrip (s : string) : string :=
  match s with
  | EmptyString => EmptyString
  | String c s' =>
      match rstrip s' with
      | EmptyString => if isspace c then EmptyString else String c EmptyString
      | r => String c r
      end
  end.

(** [v.strip()] *)
Definition strip (v : pyval) : result string :=
  match v with
  | PStr s => Returns (rstrip (lstrip s))
  | _ => Raises AttributeError
  end.

(** The returned expression,
    [response["choices"][0]["message"]["content"].strip()]. *)
Definition reply_content (response : pyval) : result string :=
  choices ← getitem response (PStr "choices") ;
  choice ← getitem choices (PInt 0) ;
  message ← getitem choice (PStr "message") ;
  content ← getitem message (PStr "content") ;
  strip content.

Definition summarize_text (text : pyval) (max_tokens : Z) (model : string)
  : M string :=
  api_key ← os_getenv "OPENAI_API_KEY" ;
  if py_not api_key then
    raise (RuntimeError "OPENAI_API_KEY environment variable not set. Please set it to your OpenAI API key.")
  else
    modify (set_openai_api_key api_key) ;;
    response ← ChatCompletion_create model
      [("system", PStr "You are a helpful assistant that summarizes meeting transcripts.");
       ("user", text)]
      max_tokens (QArith_base.Qmake 3 10) ;
    lift (reply_content response).

End Summarizer.

(** ** tracker.py *)

Section Tracker.
Context (env : Env).

(** [time.time()] *)
Definition time_time : M Z := w ← get ; mret (now w).

(** [time.sleep(secs)] refuses a negative span and otherwise lasts at least
    [secs]. *)
Definition time_sleep (secs : Z) : M unit :=
  if secs <? 0 then raise ValueError
  else
    w ← get ;
    modify (set_n_sleep (S (n_sleep w))) ;;
    elapse (secs + oversleep env (n_sleep w)).

(** [pygetwindow.getActiveWindow()] *)
Definition getActiveWindow : M (option Window) :=
  w ← get ;
  modify (set_n_query (S (n_query w))) ;;
  elapse (query_time env (n_query w)) ;;
  emit EvQuery ;;
  lift (active_window env (n_query w)).

(** The [while] loop of [track_activity]; [fuel] bounds its iterations. *)
Fixpoint track_loop (fuel : nat) (end_time interval : Z) (records : list Sample)
  : M (list Sample) :=
  match fuel with
  | O => out_of_fuel
  | S fuel' =>
      t ← time_time ;
      if t <? end_time then
        win ← getActiveWindow ;
        let title := match win with
                     | Some win => win_title win
                     | None => "Unknown"
                     end in
        ts ← time_time ;
        let records := records ++ [{| timestamp := ts; title := title |}] in
        time_sleep interval ;;
        track_loop fuel' end_time interval records
      else mret records
  end.

(** [duration] is in seconds, [interval] in clock ticks. *)
Definition track_activity (fuel : nat) (duration interval : Z) : M (list Sample) :=
  let records := [] in
  t ← time_time ;
  let end_time := t + duration * hz env in
  track_loop fuel end_time interval records.

End Tracker.

(** ** main.py *)

Section Main.
Context (env : Env).

(** [open(path, "w", encoding="utf-8")] *)
Definition open_w (path : string) : M string :=
  open_for_writing env path (CText "") ;; mret path.

(** [f.write(v)] accepts a [str] only. *)
Definition append_text (s : string) (c : content) : content :=
  match c with
  | CText old => CText (old +:+ s)
  | _ => c
  end.

Definition file_write (f : string) (v : pyval) : M unit :=
  match v with
  | PStr s => modify (fun w => set_files (alter (append_text s) f (files w)) w)
  | _ => raise TypeError
  end.

(** [json.dump(activity, f, indent=2)]; the text written is represented by
    the array of records it encodes. *)
Definition json_dump (activity : list Sample) (f : string) : M unit :=
  modify (fun w => set_files (<[f := CJson activity]> (files w)) w).

(** The default [interval=1.0] of [track_activity] is one second. *)
Definition default_interval : Z := hz env.

Definition run_session (fuel : nat) (duration : Z) (prefix : string)
  : M (list string) :=
  let audio_file := prefix +:+ "_audio.wav" in
  let video_file := prefix +:+ "_screen.avi" in
  let transcript_file := prefix +:+ "_transcript.txt" in
  let summary_file := prefix +:+ "_summary.txt" in
  let activity_file := prefix +:+ "_activity.json" in
  record_audio_and_screen env audio_file video_file duration ;;
  transcript ← transcribe env audio_file "base" ;
  tf ← open_w transcript_file ;
  file_write tf transcript ;;
  summary ← summarize_text env transcript 150 "gpt-3.5-turbo" ;
  sf ← open_w summary_file ;
  file_write sf (PStr summary) ;;
  activity ← track_activity env fuel duration default_interval ;
  af ← open_w activity_file ;
  json_dump activity af ;;
  print ("Session complete." +:+ nl +:+ "Audio: " +:+ audio_file
         +:+ nl +:+ "Video: " +:+ video_file
         +:+ nl +:+ "Transcript: " +:+ transcript_file
         +:+ nl +:+ "Summary: " +:+ summary_file
         +:+ nl +:+ "Activity log: " +:+ activity_file) ;;
  mret [audio_file; video_file; transcript_file; summary_file].

End Main.

(** * Vocabulary of the properties *)

Definition is_ok {A} (r : outcome A) : bool :=
  match r with Ok _ => true | _ => false end.

(** The files opened for writing, and the files read, in the order of the
    trace. *)
Definition writes (evs : list event) : list string :=
  omap (fun e => match e with EvOpenW p => Some p | _ => None end) evs.

Definition reads (evs : list event) : list string :=
  omap (fun e => match e with EvRead p => Some p | _ => None end) evs.


(** The title a sample must carry for the [k]-th window query. *)
Definition expected_title (env : Env) (k : nat) : string :=
  match active_window env k with
  | Returns (Some win) => win_title win
  | _ => "Unknown"
  end.

(** Every timestamp is at least [gap] after the one before it, and the
    first one is not before [lo]. *)
Fixpoint spaced (gap lo : Z) (l : list Sample) : Prop :=
  match l with
  | [] => True
  | s :: l' => lo <= timestamp s /\ spaced gap (timestamp s + gap) l'
  end.

(** The [k]-th window query returns (a window or nothing) rather than
    raising. *)
Definition answers (env : Env) (k : nat) : Prop :=
  exists r, active_window env k = Returns r.

(** The world after one iteration of the sampling loop started in [w]. *)
Definition after_iteration (env : Env) (interval : Z) (w : World) : World :=
  set_now (now w + query_time env (n_query w)
           + (interval + oversleep env (n_sleep w)))
    (set_n_sleep (S (n_sleep w))
       (set_trace (trace w ++ [EvQuery])
          (set_now (now w + query_time env (n_query w))
             (set_n_query (S (n_query w)) w)))).


(** ** Traces of a session *)

Definition opt (b : bool) (e : event) : list event := if b then [e] else [].

(** What the capture stage leaves in the trace: the recording and the
    audio file if the audio task got that far, the video file if the
    writer could be opened, and the screenshots taken. *)
Definition capture_events (env : Env) (duration : Z) (audio_file video_file : string)
    (evs : list event) : Prop :=
  exists (ra oa : bool) (k : nat),
    evs = opt ra EvRecord ++ opt oa (EvOpenW audio_file)
          ++ opt (writable env video_file && codec_ok env) (EvOpenW video_file)
          ++ replicate k EvShot /\
    (0 <= duration -> mic_ok env default_fs default_channels = true -> ra = true) /\
    (ra = true -> writable env audio_file = true -> oa = true).

(** What each of the two tasks leaves in the trace. *)
Definition audio_events (env : Env) (filename : string) (duration fs channels : Z)
    (evs : list event) : Prop :=
  exists ra oa : bool,
    evs = opt ra EvRecord ++ opt oa (EvOpenW filename) /\
    (0 <= duration * fs -> mic_ok env fs channels = true -> ra = true) /\
    (ra = true -> writable env filename = true -> oa = true).

Definition screen_events (env : Env) (filename : string) (evs : list event) : Prop :=
  exists k : nat,
    evs = opt (writable env filename && codec_ok env) (EvOpenW filename)
          ++ replicate k EvShot.

(** Both capture tasks are able to create their files. *)
Definition capture_ok (env : Env) (duration : Z) (audio_file video_file : string)
  : Prop :=
  0 <= duration /\
  mic_ok env default_fs default_channels = true /\
  writable env audio_file = true /\
  writable env video_file = true /\
  codec_ok env = true.

(** The five artifacts of a session, and the four paths it returns. *)
Definition session_files (prefix : string) : list string :=
  [prefix +:+ "_audio.wav"; prefix +:+ "_screen.avi";
   prefix +:+ "_transcript.txt"; prefix +:+ "_summary.txt";
   prefix +:+ "_activity.json"].

Definition returned_paths (prefix : string) : list string :=
  [prefix +:+ "_audio.wav"; prefix +:+ "_screen.avi";
   prefix +:+ "_transcript.txt"; prefix +:+ "_summary.txt"].

(** The seven stages of a session, each given by the events of its complete
    execution. *)
Definition session_stages (env : Env) (duration : Z) (prefix : string)
  : list (list event -> Prop) :=
  [ capture_events env duration (prefix +:+ "_audio.wav") (prefix +:+ "_screen.avi");
    (fun evs => evs = [EvLoadModel "base"; EvRead (prefix +:+ "_audio.wav")]);
    (fun evs => evs = [EvOpenW (prefix +:+ "_transcript.txt")]);
    (fun evs => exists rq, evs = [EvApi rq]);
    (fun evs => evs = [EvOpenW (prefix +:+ "_summary.txt")]);
    (fun evs => exists n, evs = replicate n EvQuery);
    (fun evs => evs = [EvOpenW (prefix +:+ "_activity.json")]) ].

(** [pipeline stages complete evs]: [evs] is made of the complete
    executions of the first stages, in their order; when [complete] holds
    all stages are there, otherwise the last one present may have been cut
    short. *)
Fixpoint pipeline (stages : list (list event -> Prop)) (complete : bool)
    (evs : list event) : Prop :=
  match stages with
  | [] => evs = []
  | F :: rest =>
      (complete = false /\ exists full, F full /\ evs `prefix_of` full) \/
      (exists e1 e2, evs = e1 ++ e2 /\ F e1 /\ pipeline rest complete e2)
  end.

(** [tracks c L]: run in any world, [c] appends to the trace a list of
    events that [L] accepts for the way [c] ended ([true]: it returned);
    no file disappears, and every file opened for writing exists
    afterwards. *)
Definition tracks {A} (c : M A) (L : bool -> list event -> Prop) : Prop :=
  forall w, exists evs,
    trace (snd (c w)) = trace w ++ evs /\
    L (is_ok (fst (c w))) evs /\
    (forall p, is_Some (files w !! p) -> is_Some (files (snd (c w)) !! p)) /\
    (forall p, p ∈ writes evs -> is_Some (files (snd (c w)) !! p)).

(** No event, whatever the way it ended; no event and a return. *)
Definition silent : bool -> list event -> Prop := fun _ evs => evs = [].

Definition quiet : bool -> list event -> Prop :=
  fun b evs => b = true /\ evs = [].

Definition terminates {A} (c : M A) : Prop :=
  forall w, fst (c w) <> OutOfFuel.

(** An environment in which every stage of a session succeeds. *)
Record well_behaved (env : Env) (duration : Z) : Prop := {
  wb_hz : 0 < hz env;
  wb_duration : 0 <= duration;
  wb_writable : forall p, writable env p = true;
  wb_mic : mic_ok env default_fs default_channels = true;
  wb_load : whisper_load env "base" = Returns tt;
  wb_whisper : forall c, exists d s,
      whisper_run env c = Returns d /\ dict_get d "text" (PStr "") = PStr s;
  wb_key : exists key, environ env !! "OPENAI_API_KEY" = Some key /\ key <> "";
  wb_chat : forall rq, exists response s,
      chat_create env rq = Returns response /\ reply_content response = Returns s;
  wb_window : forall k, exists r, active_window env k = Returns r;
  wb_query_time : forall k, 0 <= query_time env k;
  wb_oversleep : forall k, 0 <= oversleep env k
}.

(** ** What the capture leaves in the files *)

(** The array that [sd.rec] delivers. *)
Definition recorded (env : Env) (frames channels : Z) : list (list Z) :=
  map (fun i => map (fun c => wrap16 (mic_sample env i c))
                    (seq 0 (Z.to_nat channels)))
      (seq 0 (Z.to_nat frames)).

(** [np.frombuffer(data, dtype='<i2')]: the 16-bit samples that a string of
    bytes holds, low byte first. *)
Fixpoint frombuffer (data : list Z) : list Z :=
  match data with
  | lo :: hi :: rest => wrap16 (lo + 256 * hi) :: frombuffer rest
  | _ => []
  end.

(** The picture of the [k]-th screenshot; the empty picture stands for a
    capture that raises. *)
Definition shot_image (env : Env) (k : nat) : image :=
  match screenshot env k with
  | Returns img => img
  | Raises _ => []
  end.

(** The frames written for the screenshots [k], ..., [k + n - 1]. *)
Definition frames_of (env : Env) (k n : nat) : list image :=
  map (fun i => cvtColor_BGR2RGB (shot_image env i)) (seq k n).

(** The time that the screenshots [k], ..., [k + n - 1] take together. *)
Definition shots_time (env : Env) (k n : nat) : Z :=
  foldr Z.add 0 (map (shot_time env) (seq k n)).

(** Several calls of [add_frame] in one. *)
Definition add_frames (frames : list image) (c : content) : content :=
  match c with
  | CAvi v => CAvi {| avi_fourcc := avi_fourcc v; avi_fps := avi_fps v;
                      avi_size := avi_size v;
                      avi_frames := avi_frames v ++ frames |}
  | _ => c
  end.

(** The body of the loop of [record_screen]. *)
Definition capture_frame (env : Env) (out : VideoWriter) : M unit :=
  img ← pyautogui_screenshot env ;
  let frame := cvtColor_BGR2RGB img in
  VideoWriter_write out frame.

(** ** Files that a computation may change *)

(** [touches S c]: run in any world, [c] changes no file outside [S]. *)
Definition touches {A} (S : list string) (c : M A) : Prop :=
  forall w p, p ∉ S -> files (snd (c w)) !! p = files w !! p.

(** [yields c Q]: what [c] returns satisfies [Q]. *)
Definition yields {A} (c : M A) (Q : A -> Prop) : Prop :=
  forall w a w', c w = (Ok a, w') -> Q a.

(** ** Strings and requests *)





(** The request that [summarize_text] sends. *)
Definition summary_request (key : string) (text : pyval) (max_tokens : Z)
    (model : string) : ApiRequest :=
  {| rq_key := Some key; rq_model := model;
     rq_messages :=
       [("system", PStr "You are a helpful assistant that summarizes meeting transcripts.");
        ("user", text)];
     rq_max_tokens := max_tokens;
     rq_temperature := QArith_base.Qmake 3 10 |}.

(** * Example environments *)

Definition world0 : World :=
  {| files := ∅; trace := []; stdout := []; now := 0;
     n_shot := 0; n_query := 0; n_sleep := 0; openai_api_key := None |}.

Definition chat_reply (s : string) : pyval :=
  PDict [("object", PStr "chat.completion");
         ("choices",
          PList [PDict [("index", PInt 0);
                        ("message", PDict [("role", PStr "assistant");
                                           ("content", PStr s)])]])].

(** An office whose clock ticks ten times a second. *)
Definition office (codec : bool) (windows : nat -> result (option Window))
    (query_ticks : Z) : Env :=
  {| hz := 10;
     environ := {["OPENAI_API_KEY" := "sk-test"]};
     writable := fun _ => true;
     mic_ok := fun _ _ => true;
     mic_sample := fun _ _ => 7;
     rec_time := 10;
     screen_size := (2, 1);
     codec_ok := codec;
     screenshot := fun _ => Returns [(1, 2, 3); (4, 5, 6)];
     shot_time := fun _ => 1;
     whisper_load := fun _ => Returns tt;
     whisper_run := fun _ => Returns {["text" := PStr " good morning"]};
     chat_create := fun _ => Returns (chat_reply " A greeting. ");
     active_window := windows;
     query_time := fun _ => query_ticks;
     oversleep := fun _ => 0 |}.

Definition editor : Window := {| win_title := "Editor" |}.

(** The second query finds no window. *)
Definition unfocused_once (k : nat) : result (option Window) :=
  if (k =? 1)%nat then Returns None else Returns (Some editor).

(** The second query raises. *)
Definition raising_once (k : nat) : result (option Window) :=
  if (k =? 1)%nat then Raises WindowError else Returns (Some editor).

Definition studio : Env := office true unfocused_once 0.
Definition studio_raising : Env := office true raising_once 0.
Definition studio_without_codec : Env := office false unfocused_once 0.

(** The same environment with other variables, or another Whisper. *)
Definition with_environ (vars : gmap string string) (env : Env) : Env :=
  {| hz := hz env; environ := vars; writable := writable env;
     mic_ok := mic_ok env; mic_sample := mic_sample env;
     rec_time := rec_time env; screen_size := screen_size env;
     codec_ok := codec_ok env; screenshot := screenshot env;
     shot_time := shot_time env; whisper_load := whisper_load env;
     whisper_run := whisper_run env; chat_create := chat_create env;
     active_window := active_window env; query_time := query_time env;
     oversleep := oversleep env |}.

Definition with_whisper_run (f : content -> result (gmap string pyval))
    (env : Env) : Env :=
  {| hz := hz env; environ := environ env; writable := writable env;
     mic_ok := mic_ok env; mic_sample := mic_sample env;
     rec_time := rec_time env; screen_size := screen_size env;
     codec_ok := codec_ok env; screenshot := screenshot env;
     shot_time := shot_time env; whisper_load := whisper_load env;
     whisper_run := f; chat_create := chat_create env;
     active_window := active_window env; query_time := query_time env;
     oversleep := oversleep env |}.

Definition studio_without_key : Env := with_environ ∅ studio.
Definition studio_with_empty_key : Env :=
  with_environ {["OPENAI_API_KEY" := ""]} studio.
Definition studio_mute_whisper : Env :=
  with_whisper_run (fun _ => Returns {["language" := PStr "en"]}) studio.

(** A world in which a recording already exists. *)
Definition world_with_audio : World :=
  set_files {["t_audio.wav" := CText "RIFF"]} world0.

(** Capture tasks standing in for the real ones: one that only takes [n]
    ticks, one that returns at once. *)
Definition delayed_task (n : Z) : string -> Z -> M unit :=
  fun _ _ => elapse n.
Definition instant_task : string -> Z -> M unit :=
  fun _ _ => mret tt.

(** The same environment with another disk, another screen, another
    microphone. *)
Definition with_writable (f : string -> bool) (env : Env) : Env :=
  {| hz := hz env; environ := environ env; writable := f;
     mic_ok := mic_ok env; mic_sample := mic_sample env;
     rec_time := rec_time env; screen_size := screen_size env;
     codec_ok := codec_ok env; screenshot := screenshot env;
     shot_time := shot_time env; whisper_load := whisper_load env;
     whisper_run := whisper_run env; chat_create := chat_create env;
     active_window := active_window env; query_time := query_time env;
     oversleep := oversleep env |}.

Definition with_screenshot (f : nat -> result image) (env : Env) : Env :=
  {| hz := hz env; environ := environ env; writable := writable env;
     mic_ok := mic_ok env; mic_sample := mic_sample env;
     rec_time := rec_time env; screen_size := screen_size env;
     codec_ok := codec_ok env; screenshot := f;
     shot_time := shot_time env; whisper_load := whisper_load env;
     whisper_run := whisper_run env; chat_create := chat_create env;
     active_window := active_window env; query_time := query_time env;
     oversleep := oversleep env |}.

Definition with_mic_ok (f : Z -> Z -> bool) (env : Env) : Env :=
  {| hz := hz env; environ := environ env; writable := writable env;
     mic_ok := f; mic_sample := mic_sample env;
     rec_time := rec_time env; screen_size := screen_size env;
     codec_ok := codec_ok env; screenshot := screenshot env;
     shot_time := shot_time env; whisper_load := whisper_load env;
     whisper_run := whisper_run env; chat_create := chat_create env;
     active_window := active_window env; query_time := query_time env;
     oversleep := oversleep env |}.

(** A disk on which nothing can be created; a screen whose third capture
    fails. *)
Definition studio_read_only : Env := with_writable (fun _ => false) studio.

Definition failing_third (k : nat) : result image :=
  if (k =? 2)%nat then Raises ScreenshotError
  else Returns [(1, 2, 3); (4, 5, 6)].

Definition studio_screen_lost : Env := with_screenshot failing_third studio.

Definition studio_without_microphone : Env :=
  with_mic_ok (fun _ _ => false) studio.

(** * Reasoning about computations *)

Lemma bind_ok {A B} (c : M A) (k : A -> M B) w a w' :
  c w = (Ok a, w') -> (c ≫= k) w = k a w'.
Proof. intros H. unfold mbind, M_bind. by rewrite H. Qed.

Lemma bind_raise {A B} (c : M A) (k : A -> M B) w e w' :
  c w = (Raise e, w') -> (c ≫= k) w = (Raise e, w').
Proof. intros H. unfold mbind, M_bind. by rewrite H. Qed.

Lemma bind_inv {A B} (c : M A) (k : A -> M B) w b w' :
  (c ≫= k) w = (Ok b, w') ->
  exists a w1, c w = (Ok a, w1) /\ k a w1 = (Ok b, w').
Proof.
  unfold mbind, M_bind. destruct (c w) as [[a| |] w1]; [eauto | done | done].
Qed.

Ltac world_simpl :=
  cbn [files trace stdout now n_shot n_query n_sleep openai_api_key
       set_files set_trace set_stdout set_now set_n_shot set_n_query
       set_n_sleep set_openai_api_key fst snd] in *.

(** * recorder.py: the audio file *)

Lemma length_frame_bytes (frame : list Z) :
  length (concat (map int16_bytes frame)) = (length frame * 2)%nat.
Proof.
  induction frame as [|s frame IH]; [done|].
  cbn [map concat length app int16_bytes]. rewrite IH. lia.
Qed.

Lemma length_tobytes (audio : list (list Z)) (n : nat) :
  Forall (fun frame => length frame = n) audio ->
  length (tobytes audio) = (length audio * (n * 2))%nat.
Proof.
  unfold tobytes. induction 1 as [|frame audio Hf _ IH]; [done|].
  cbn [map concat length]. rewrite length_app, IH, length_frame_bytes, Hf. lia.
Qed.



(** * recorder.py: the video file *)





(** * recorder.py: the join *)

(** The instant at which the coordinator returns. *)
Lemma join_instant
    (audio_task screen_task : string -> Z -> M unit)
    (audio_file video_file : string) (duration : Z) (w : World) :
  let wa := snd (audio_task audio_file duration w) in
  let wv := snd (screen_task video_file duration (set_now (now w) wa)) in
  fst (audio_task audio_file duration w) <> OutOfFuel ->
  fst (screen_task video_file duration (set_now (now w) wa)) <> OutOfFuel ->
  exists w',
    record_audio_and_screen_with audio_task screen_task
      audio_file video_file duration w = (Ok (audio_file, video_file), w') /\
    now w' = Z.max (Z.max (now w) (now wa)) (now wv).
Proof.
  intros wa wv Ha Hv. subst wa wv.
  destruct (audio_task audio_file duration w) as [ra wa] eqn:Ea.
  cbn [fst snd] in *.
  destruct (screen_task video_file duration (set_now (now w) wa))
    as [rv wv] eqn:Ev.
  cbn [fst snd] in *.
  assert (Hsa : Thread_start (audio_task audio_file duration) w
                = (Ok {| t_finish := now wa |}, set_now (now w) wa)).
  { unfold Thread_start. rewrite Ea. by destruct ra. }
  assert (Hsv : Thread_start (screen_task video_file duration)
                  (set_now (now w) wa)
                = (Ok {| t_finish := now wv |}, set_now (now w) wv)).
  { unfold Thread_start. rewrite Ev. by destruct rv. }
  unfold record_audio_and_screen_with.
  erewrite bind_ok by exact Hsa. erewrite bind_ok by exact Hsv.
  erewrite bind_ok by reflexivity. erewrite bind_ok by reflexivity.
  eexists. split; [reflexivity|]. world_simpl. cbn [t_finish]. lia.
Qed.

(** C2.  Whatever the two capture tasks are, provided each of them ends,
    [record_audio_and_screen] returns the two names at the instant that is
    the latest of the instant of the call, the instant at which the audio
    task ends and the instant at which the screen task ends: it returns
    before neither task has ended, and a task that takes [N] ticks makes
    the call take at least [N] ticks. *)
Theorem record_audio_and_screen_joins_both
    (audio_task screen_task : string -> Z -> M unit)
    (audio_file video_file : string) (duration : Z) (w : World) :
  let wa := snd (audio_task audio_file duration w) in
  let wv := snd (screen_task video_file duration (set_now (now w) wa)) in
  fst (audio_task audio_file duration w) <> OutOfFuel ->
  fst (screen_task video_file duration (set_now (now w) wa)) <> OutOfFuel ->
  exists w',
    record_audio_and_screen_with audio_task screen_task
      audio_file video_file duration w = (Ok (audio_file, video_file), w') /\
    now w' = Z.max (Z.max (now w) (now wa)) (now wv) /\
    now wa <= now w' /\
    now wv <= now w' /\
    forall N, N <= now wa - now w \/ N <= now wv - now w -> N <= now w' - now w.
Proof.
  intros wa wv Ha Hv.
  destruct (join_instant audio_task screen_task audio_file video_file
              duration w Ha Hv) as (w' & Hrun & Hnow).
  exists w'. fold wa wv in Hnow. repeat split; try done; lia.
Qed.

Lemma record_audio_and_screen_joins_both_witness :
  exists w',
    record_audio_and_screen_with (delayed_task 50) instant_task
      "t_audio.wav" "t_screen.avi" 3 world0
    = (Ok ("t_audio.wav", "t_screen.avi"), w') /\
    now w' = 50 /\ 50 <= now w' /\ 0 <= now w' /\
    forall N, N <= 50 - 0 \/ N <= 0 - 0 -> N <= now w' - 0.
Proof.
  exact (record_audio_and_screen_joins_both (delayed_task 50) instant_task
           "t_audio.wav" "t_screen.avi" 3 world0
           ltac:(discriminate) ltac:(discriminate)).
Defined.

(** * transcriber.py *)

(** C10.  When the model loads and transcribes the file, and the
    dictionary it returns has no ["text"] entry, [transcribe] returns the
    empty string and raises nothing. *)
Theorem transcribe_without_text env audio_path model_name w c d :
  whisper_load env model_name = Returns tt ->
  files w !! audio_path = Some c ->
  whisper_run env c = Returns d ->
  d !! "text" = None ->
  fst (transcribe env audio_path model_name w) = Ok (PStr "").
Proof.
  intros Hl Hf Hr Hd.
  unfold transcribe, whisper_load_model, model_transcribe, dict_get,
    emit, modify, lift, get.
  unfold mbind, M_bind, mret, M_ret. world_simpl.
  rewrite Hl. world_simpl. rewrite Hf. world_simpl. rewrite Hr, Hd.
  reflexivity.
Qed.

Lemma transcribe_without_text_witness :
  fst (transcribe studio_mute_whisper "t_audio.wav" "base" world_with_audio)
  = Ok (PStr "").
Proof.
  exact (transcribe_without_text studio_mute_whisper "t_audio.wav" "base"
           world_with_audio (CText "RIFF") {["language" := PStr "en"]}
           eq_refl eq_refl eq_refl eq_refl).
Defined.

(** * summarizer.py *)

(** C6.  When [OPENAI_API_KEY] is unset or empty, [summarize_text] raises a
    [RuntimeError] and leaves the world as it found it: in particular no
    call of the chat API is added to the trace. *)
Theorem summarize_text_requires_key env text max_tokens model w :
  environ env !! "OPENAI_API_KEY" = None \/
  environ env !! "OPENAI_API_KEY" = Some "" ->
  exists msg,
    summarize_text env text max_tokens model w = (Raise (RuntimeError msg), w).
Proof.
  intros H. eexists. unfold summarize_text, os_getenv.
  unfold mbind at 1, M_bind, mret, M_ret.
  destruct H as [-> | ->]; reflexivity.
Qed.

Lemma summarize_text_requires_key_witness :
  (exists msg,
     summarize_text studio_without_key (PStr "minutes") 150 "gpt-3.5-turbo" world0
     = (Raise (RuntimeError msg), world0)) /\
  (exists msg,
     summarize_text studio_with_empty_key (PStr "minutes") 150 "gpt-3.5-turbo" world0
     = (Raise (RuntimeError msg), world0)).
Proof.
  split.
  - exact (summarize_text_requires_key studio_without_key (PStr "minutes") 150
             "gpt-3.5-turbo" world0 (or_introl eq_refl)).
  - exact (summarize_text_requires_key studio_with_empty_key (PStr "minutes") 150
             "gpt-3.5-turbo" world0 (or_intror eq_refl)).
Defined.

(** With a key, the API is called, with that key. *)
Example summarize_text_calls_api :
  exists rq,
    trace (snd (summarize_text studio (PStr "minutes") 150 "gpt-3.5-turbo" world0))
    = [EvApi rq] /\ rq_key rq = Some "sk-test" /\
    fst (summarize_text studio (PStr "minutes") 150 "gpt-3.5-turbo" world0)
    = Ok "A greeting.".
Proof. eexists. vm_compute. repeat split. Qed.

(** * tracker.py *)

Lemma spaced_weaken gap lo lo' l :
  lo' <= lo -> spaced gap lo l -> spaced gap lo' l.
Proof. destruct l; cbn; [done|]. intros ? [? ?]. split; [lia|done]. Qed.


Section Iteration.
Context (env : Env) (interval : Z).
Hypothesis Hint : 0 <= interval.

(** An iteration whose query returns appends one sample and goes on. *)
Lemma iteration_ok end_time records w r :
  now w < end_time ->
  active_window env (n_query w) = Returns r ->
  forall fuel,
  track_loop env (S fuel) end_time interval records w =
  track_loop env fuel end_time interval
    (records ++ [{| timestamp := now w + query_time env (n_query w);
                    title := expected_title env (n_query w) |}])
    (after_iteration env interval w).
Proof.
  intros Hlt Hr fuel.
  cbn [track_loop]. erewrite bind_ok by reflexivity.
  apply Z.ltb_lt in Hlt. rewrite Hlt.
  erewrite bind_ok; last first.
  { unfold getActiveWindow, get, modify, elapse, emit, lift, mbind, M_bind.
    world_simpl. rewrite Hr. reflexivity. }
  erewrite bind_ok by reflexivity.
  erewrite bind_ok; last first.
  { unfold time_sleep.
    assert (Hi : (interval <? 0) = false) by (apply Z.ltb_ge; lia).
    rewrite Hi. reflexivity. }
  unfold expected_title. rewrite Hr. world_simpl. reflexivity.
Qed.

(** An iteration whose query raises ends the loop with that exception. *)
Lemma iteration_raise end_time records w e fuel :
  now w < end_time ->
  active_window env (n_query w) = Raises e ->
  fst (track_loop env (S fuel) end_time interval records w) = Raise e.
Proof.
  intros Hlt Hr.
  cbn [track_loop]. erewrite bind_ok by reflexivity.
  apply Z.ltb_lt in Hlt. rewrite Hlt.
  erewrite bind_raise; [reflexivity|].
  unfold getActiveWindow, get, modify, elapse, emit, lift, mbind, M_bind.
  world_simpl. rewrite Hr. reflexivity.
Qed.

Lemma iteration_last end_time records w fuel :
  end_time <= now w ->
  track_loop env (S fuel) end_time interval records w = (Ok records, w).
Proof.
  intros Hge. cbn [track_loop]. erewrite bind_ok by reflexivity.
  apply Z.ltb_ge in Hge. by rewrite Hge.
Qed.

End Iteration.

(** More fuel does not change a result. *)
Lemma track_loop_fuel_mono env interval fuel :
  forall fuel' end_time records w recs w',
  (fuel <= fuel')%nat ->
  track_loop env fuel end_time interval records w = (Ok recs, w') ->
  track_loop env fuel' end_time interval records w = (Ok recs, w').
Proof.
  induction fuel as [|fuel IH]; intros fuel' end_time records w recs w' Hle H;
    [done|].
  destruct fuel' as [|fuel']; [lia|].
  cbn [track_loop] in *.
  apply bind_inv in H as (t & w1 & Ht & H). erewrite bind_ok by exact Ht.
  destruct (t <? end_time); [|exact H].
  apply bind_inv in H as (win & w2 & Hwin & H). erewrite bind_ok by exact Hwin.
  apply bind_inv in H as (ts & w3 & Hts & H). erewrite bind_ok by exact Hts.
  apply bind_inv in H as ([] & w4 & Hsl & H). erewrite bind_ok by exact Hsl.
  apply IH; [lia|exact H].
Qed.

Section Run.
Context (env : Env) (interval : Z).
Hypothesis Hint : 0 < interval.
Hypothesis Hquery : forall k, 0 <= query_time env k.
Hypothesis Hsleep : forall k, 0 <= oversleep env k.

(** The loop either runs to the end of the span, one sample per query, or
    ends with the exception of the first query that raises. *)
Lemma track_loop_outcome fuel : forall end_time records w,
  (1 <= fuel)%nat ->
  end_time - now w <= (Z.of_nat fuel - 1) * interval ->
  (exists new w',
    track_loop env fuel end_time interval records w = (Ok (records ++ new), w') /\
    (new = [] \/ (Z.of_nat (length new) - 1) * interval < end_time - now w) /\
    spaced interval (now w) new /\
    (forall i s, new !! i = Some s ->
                 answers env (n_query w + i) /\
                 title s = expected_title env (n_query w + i)) /\
    end_time <= now w' /\
    n_query w' = (n_query w + length new)%nat /\
    ((forall k, query_time env k = 0) -> (forall k, oversleep env k = 0) ->
     now w' = now w + Z.of_nat (length new) * interval)) \/
  (exists e j,
    fst (track_loop env fuel end_time interval records w) = Raise e /\
    active_window env (n_query w + j) = Raises e /\
    forall i, (i < j)%nat -> answers env (n_query w + i)).
Proof.
  induction fuel as [|fuel IH]; intros end_time records w Hf Hbudget; [lia|].
  destruct (Z.lt_ge_cases (now w) end_time) as [Hlt | Hge].
  - destruct (active_window env (n_query w)) as [r|e] eqn:Hr.
    + rewrite (iteration_ok env interval ltac:(lia) _ _ _ r) by done.
      pose proof (Hquery (n_query w)) as Hq.
      pose proof (Hsleep (n_sleep w)) as Hs.
      destruct (IH end_time
                  (records ++ [{| timestamp := now w + query_time env (n_query w);
                                  title := expected_title env (n_query w) |}])
                  (after_iteration env interval w))
        as [(new & w' & Hrun & Hlen & Hsp & Htitle & Hend & Hnq & Hideal)
           | (e & j & Hrun & He & Hbefore)].
      { unfold after_iteration; world_simpl. nia. }
      { unfold after_iteration; world_simpl. nia. }
      * left. unfold after_iteration in *. world_simpl.
        eexists (_ :: new), w'.
        split; [rewrite Hrun, <- app_assoc; reflexivity|].
        split; [right; cbn [length]; destruct Hlen as [-> | Hlen];
                cbn [length]; nia|].
        split; [cbn [spaced timestamp]; split; [lia|];
                eapply spaced_weaken; [|exact Hsp]; lia|].
        split.
        { intros [|i] s Hi; cbn in Hi.
          - injection Hi as <-. cbn [title]. rewrite Nat.add_0_r.
            split; [by exists r|done].
          - destruct (Htitle i s Hi) as [Ha Ht].
            replace (n_query w + S i)%nat with (S (n_query w) + i)%nat by lia.
            done. }
        split; [done|]. split; [rewrite Hnq; cbn [length]; lia|].
        intros Hq0 Hs0. rewrite Hideal by done. rewrite Hq0, Hs0.
        cbn [length]. lia.
      * right. unfold after_iteration in *. world_simpl.
        exists e, (S j). split; [done|].
        replace (n_query w + S j)%nat with (S (n_query w) + j)%nat by lia.
        split; [done|]. intros [|i] Hi.
        -- rewrite Nat.add_0_r. by exists r.
        -- replace (n_query w + S i)%nat with (S (n_query w) + i)%nat by lia.
           apply Hbefore. lia.
    + right. exists e, 0%nat. rewrite Nat.add_0_r.
      split; [by apply iteration_raise|]. split; [done|]. lia.
  - left. rewrite iteration_last by done. exists [], w.
    rewrite app_nil_r. cbn [length]. rewrite Nat.add_0_r.
    repeat split; try done; try lia; auto.
Qed.

End Run.

Lemma track_activity_unfold env fuel duration interval w :
  track_activity env fuel duration interval w =
  track_loop env fuel (now w + duration * hz env) interval [] w.
Proof. reflexivity. Qed.

(** The scenario of the specification, with a query that returns nothing:
    three samples, the middle one ["Unknown"]. *)
Example track_activity_unfocused_once :
  fst (track_activity studio 5 3 10 world0) =
  Ok [ {| timestamp := 0; title := "Editor" |};
       {| timestamp := 10; title := "Unknown" |};
       {| timestamp := 20; title := "Editor" |} ].
Proof. vm_compute. reflexivity. Qed.

(** C3, as the code has it.  On a clock that does not run backwards and
    with a positive interval, [track_activity] either returns one sample
    per window query it made, having run to the end of the duration, the
    sample of a query that returned nothing carrying the title
    ["Unknown"]; or it ends with the exception of the first query that
    raised, every query before it having returned. *)
Theorem track_activity_window_failures env fuel duration interval w :
  0 < interval ->
  (forall k, 0 <= query_time env k) ->
  (forall k, 0 <= oversleep env k) ->
  (1 <= fuel)%nat ->
  duration * hz env <= (Z.of_nat fuel - 1) * interval ->
  (exists recs w',
     track_activity env fuel duration interval w = (Ok recs, w') /\
     now w + duration * hz env <= now w' /\
     n_query w' = (n_query w + length recs)%nat /\
     forall i s, recs !! i = Some s ->
       answers env (n_query w + i) /\
       title s = match active_window env (n_query w + i) with
                 | Returns (Some win) => win_title win
                 | _ => "Unknown"
                 end) \/
  (exists e j,
     fst (track_activity env fuel duration interval w) = Raise e /\
     active_window env (n_query w + j) = Raises e /\
     forall i, (i < j)%nat -> answers env (n_query w + i)).
Proof.
  intros Hint Hq Hs Hf Hbudget. rewrite track_activity_unfold.
  destruct (track_loop_outcome env interval Hint Hq Hs fuel
              (now w + duration * hz env) [] w Hf ltac:(lia))
    as [(new & w' & Hrun & _ & _ & Htitle & Hend & Hnq & _) | Hraise].
  - left. exists new, w'. cbn [app] in Hrun. repeat split; try done.
    all: by destruct (Htitle i s).
  - right. exact Hraise.
Qed.

Lemma track_activity_window_failures_witness :
  (exists recs w',
     track_activity studio 5 3 10 world0 = (Ok recs, w') /\
     0 + 3 * 10 <= now w' /\
     n_query w' = (0 + length recs)%nat /\
     forall i s, recs !! i = Some s ->
       answers studio (0 + i) /\
       title s = match unfocused_once (0 + i) with
                 | Returns (Some win) => win_title win
                 | _ => "Unknown"
                 end) \/
  (exists e j,
     fst (track_activity studio 5 3 10 world0) = Raise e /\
     unfocused_once (0 + j) = Raises e /\
     forall i, (i < j)%nat -> answers studio (0 + i)).
Proof.
  apply (track_activity_window_failures studio 5 3 10 world0).
  - lia.
  - intros k. simpl. lia.
  - intros k. simpl. lia.
  - lia.
  - simpl. lia.
Defined.

(** C3, as stated, fails: a query that raises is not recorded as
    ["Unknown"]; whatever the fuel, no list of samples is returned, and
    with enough fuel the exception of the query is the outcome. *)
Lemma track_activity_raising_query_aborts :
  fst (track_activity studio_raising 5 3 10 world0) = Raise WindowError /\
  forall fuel recs,
    fst (track_activity studio_raising fuel 3 10 world0) <> Ok recs.
Proof.
  split; [vm_compute; reflexivity|].
  intros fuel recs H.
  destruct (track_activity studio_raising fuel 3 10 world0) as [r w'] eqn:E.
  cbn [fst] in H. subst r.
  rewrite track_activity_unfold in E.
  apply (track_loop_fuel_mono _ _ _ (fuel + 5)) in E; [|lia].
  replace (fuel + 5)%nat with (S (S (fuel + 3))) in E by lia.
  erewrite (iteration_ok studio_raising 10 ltac:(lia) _ _ _ (Some editor)) in E;
    [|vm_compute; reflexivity|reflexivity].
  pose proof (iteration_raise studio_raising 10 (now world0 + 3 * hz studio_raising)
                ([] ++ [{| timestamp := now world0 + query_time studio_raising (n_query world0);
                          title := expected_title studio_raising (n_query world0) |}])
                (after_iteration studio_raising 10 world0) WindowError (fuel + 3)
                ltac:(vm_compute; reflexivity) eq_refl) as Hr.
  rewrite E in Hr. discriminate.
Qed.




(** * The trace logic *)

Lemma writes_app e1 e2 : writes (e1 ++ e2) = writes e1 ++ writes e2.
Proof. apply omap_app. Qed.

Lemma reads_app e1 e2 : reads (e1 ++ e2) = reads e1 ++ reads e2.
Proof. apply omap_app. Qed.

Lemma tracks_bind {A B} (c : M A) (k : A -> M B)
    (L1 L2 L : bool -> list event -> Prop) :
  tracks c L1 ->
  (forall a, tracks (k a) L2) ->
  (forall e1, L1 false e1 -> L false e1) ->
  (forall b e1 e2, L1 true e1 -> L2 b e2 -> L b (e1 ++ e2)) ->
  tracks (c ≫= k) L.
Proof.
  intros Hc Hk Hfail Hseq w.
  destruct (Hc w) as (e1 & Ht1 & HL1 & Hkeep1 & Hw1).
  unfold mbind, M_bind.
  destruct (c w) as [[a|e|] w1]; cbn [fst snd is_ok] in *.
  - destruct (Hk a w1) as (e2 & Ht2 & HL2 & Hkeep2 & Hw2).
    exists (e1 ++ e2). split; [by rewrite Ht2, Ht1, app_assoc|].
    split; [by apply Hseq|]. split; [by auto|].
    intros p. rewrite writes_app, elem_of_app. intros [Hp|Hp]; auto.
  - exists e1. auto.
  - exists e1. auto.
Qed.

Lemma tracks_weaken {A} (c : M A) (L L' : bool -> list event -> Prop) :
  tracks c L -> (forall b evs, L b evs -> L' b evs) -> tracks c L'.
Proof.
  intros Hc HL w. destruct (Hc w) as (evs & ? & ? & ? & ?).
  exists evs. auto.
Qed.

Lemma tracks_bind_silent {A B} (c : M A) (k : A -> M B)
    (L : bool -> list event -> Prop) :
  tracks c silent -> (forall a, tracks (k a) L) -> L false [] ->
  tracks (c ≫= k) L.
Proof.
  intros Hc Hk Hnil. eapply tracks_bind; [exact Hc|exact Hk| |].
  - by intros e1 ->.
  - by intros b e1 e2 ->.
Qed.

Lemma tracks_bind_quiet {A B} (c : M A) (k : A -> M B)
    (L : bool -> list event -> Prop) :
  tracks c quiet -> (forall a, tracks (k a) L) -> tracks (c ≫= k) L.
Proof.
  intros Hc Hk. eapply tracks_bind; [exact Hc|exact Hk| |].
  - by intros e1 [? _].
  - by intros b e1 e2 [_ ->].
Qed.

Lemma tracks_events_intro {A} (c : M A) (L : bool -> list event -> Prop) :
  (forall w, exists evs,
      trace (snd (c w)) = trace w ++ evs /\ L (is_ok (fst (c w))) evs /\
      writes evs = [] /\
      forall p, is_Some (files w !! p) -> is_Some (files (snd (c w)) !! p)) ->
  tracks c L.
Proof.
  intros H w. destruct (H w) as (evs & Ht & HL & Hw & Hf). exists evs.
  repeat split; try done.
  intros p. rewrite Hw. intros Hp. by apply elem_of_nil in Hp.
Qed.

Lemma tracks_stage {A B} (c : M A) (k : A -> M B)
    (F : list event -> Prop) (rest : list (list event -> Prop)) :
  tracks c (fun b evs => if b then F evs
                         else exists full, F full /\ evs `prefix_of` full) ->
  (forall a, tracks (k a) (pipeline rest)) ->
  tracks (c ≫= k) (pipeline (F :: rest)).
Proof.
  intros Hc Hk. eapply tracks_bind; [exact Hc|exact Hk| |].
  - intros e1 He1. left. by split.
  - intros b e1 e2 He1 He2. right. by exists e1, e2.
Qed.

Lemma pipeline_false_nil (stages : list (list event -> Prop)) :
  Forall (fun F => exists full, F full) stages -> pipeline stages false [].
Proof.
  destruct 1 as [|F rest [full HF] _]; [done|].
  left. split; [done|]. exists full. split; [done|]. apply prefix_nil.
Qed.

(** ** Operations that leave the trace alone *)

Ltac case_all :=
  repeat match goal with
         | |- context [if ?b then _ else _] => destruct b eqn:?
         | |- context [match ?x with _ => _ end] => destruct x eqn:?
         end.

Ltac keeps_files :=
  let p := fresh "p" in let Hp := fresh "Hp" in
  intros p Hp; world_simpl; try exact Hp;
  repeat first [ apply lookup_insert_is_Some'; right
               | apply lookup_alter_is_Some ];
  exact Hp.

Ltac no_event :=
  let w := fresh "w" in
  apply tracks_events_intro; intros w; exists []; case_all;
  world_simpl; cbn [is_ok];
  (split; [by rewrite app_nil_r|]);
  (split; [by repeat split|]);
  (split; [reflexivity|]); keeps_files.

Lemma tracks_ret {A} (a : A) : tracks (mret a : M A) quiet.
Proof. no_event. Qed.

Lemma tracks_get : tracks get quiet.
Proof. no_event. Qed.

Lemma tracks_print s : tracks (print s) quiet.
Proof. no_event. Qed.

Lemma tracks_elapse dt : tracks (elapse dt) quiet.
Proof. no_event. Qed.

Lemma tracks_sd_wait env : tracks (sd_wait env) quiet.
Proof. no_event. Qed.

Lemma tracks_time_time : tracks time_time quiet.
Proof. no_event. Qed.

Lemma tracks_json_dump activity f : tracks (json_dump activity f) quiet.
Proof. unfold json_dump, modify. no_event. Qed.

Lemma tracks_Thread_join t : tracks (Thread_join t) quiet.
Proof. no_event. Qed.

Lemma tracks_VideoWriter_write out frame :
  tracks (VideoWriter_write out frame) quiet.
Proof. unfold VideoWriter_write, modify, mret, M_ret. no_event. Qed.

Lemma tracks_VideoWriter_release out : tracks (VideoWriter_release out) quiet.
Proof. no_event. Qed.

Lemma tracks_raise {A} (e : exn) :
  tracks (raise e : M A) (fun b evs => b = false /\ evs = []).
Proof. no_event. Qed.

Lemma tracks_lift {A} (r : result A) : tracks (lift r) silent.
Proof. unfold lift. no_event. Qed.

Lemma tracks_time_sleep env secs : tracks (time_sleep env secs) silent.
Proof. unfold time_sleep, raise, get, modify, elapse, mbind, M_bind. no_event. Qed.

Lemma tracks_file_write f v : tracks (file_write f v) silent.
Proof. unfold file_write, modify, raise. no_event. Qed.

Lemma tracks_writeframes wf data : tracks (writeframes wf data) silent.
Proof. unfold writeframes, modify, raise. no_event. Qed.

Lemma tracks_setnchannels wf n : tracks (setnchannels wf n) silent.
Proof. unfold setnchannels, raise, mret, M_ret. no_event. Qed.

Lemma tracks_setsampwidth wf n : tracks (setsampwidth wf n) silent.
Proof. unfold setsampwidth, raise, mret, M_ret. no_event. Qed.

Lemma tracks_setframerate wf n : tracks (setframerate wf n) silent.
Proof. unfold setframerate, raise, mret, M_ret. no_event. Qed.

(** ** Operations that add events *)

Lemma tracks_open_for_writing env path c :
  tracks (open_for_writing env path c)
    (fun b evs => evs = opt b (EvOpenW path) /\ b = writable env path).
Proof.
  intros w. unfold open_for_writing, emit, modify, raise, mbind, M_bind.
  destruct (writable env path); world_simpl; cbn [is_ok].
  - exists [EvOpenW path]. repeat split; try done.
    + keeps_files.
    + intros p Hp. apply list_elem_of_singleton in Hp as ->.
      rewrite lookup_insert_eq. by eexists.
  - exists []. rewrite app_nil_r. repeat split; try done.
    intros p Hp. by apply elem_of_nil in Hp.
Qed.

Lemma tracks_sd_rec env frames fs channels :
  tracks (sd_rec env frames fs channels)
    (fun b evs => evs = opt b EvRecord /\
                  (0 <= frames -> mic_ok env fs channels = true -> b = true)).
Proof.
  apply tracks_events_intro. intros w.
  unfold sd_rec, emit, modify, raise, mbind, M_bind, mret, M_ret.
  destruct (frames <? 0) eqn:Hf; [|destruct (mic_ok env fs channels) eqn:Hm];
    world_simpl; cbn [negb is_ok].
  - exists []. rewrite app_nil_r. repeat split; try done.
    apply Z.ltb_lt in Hf. lia.
  - exists [EvRecord]. repeat split; done.
  - exists []. rewrite app_nil_r. repeat split; try done.
Qed.

Lemma tracks_pyautogui_screenshot env :
  tracks (pyautogui_screenshot env) (fun _ evs => evs = [EvShot]).
Proof.
  apply tracks_events_intro. intros w. exists [EvShot].
  unfold pyautogui_screenshot, get, emit, elapse, modify, lift, mbind, M_bind.
  world_simpl. destruct (screenshot env (n_shot w)); world_simpl; done.
Qed.

Lemma tracks_getActiveWindow env :
  tracks (getActiveWindow env) (fun _ evs => evs = [EvQuery]).
Proof.
  apply tracks_events_intro. intros w. exists [EvQuery].
  unfold getActiveWindow, get, emit, elapse, modify, lift, mbind, M_bind.
  world_simpl. destruct (active_window env (n_query w)); world_simpl; done.
Qed.

Lemma tracks_VideoWriter_open env filename fourcc fps size :
  tracks (VideoWriter_open env filename fourcc fps size)
    (fun b evs => b = true /\
       evs = opt (writable env filename && codec_ok env) (EvOpenW filename)).
Proof.
  intros w. unfold VideoWriter_open, emit, modify, mbind, M_bind, mret, M_ret.
  destruct (writable env filename && codec_ok env); world_simpl; cbn [is_ok].
  - exists [EvOpenW filename]. repeat split; try done.
    + keeps_files.
    + intros p Hp. apply list_elem_of_singleton in Hp as ->.
      rewrite lookup_insert_eq. by eexists.
  - exists []. rewrite app_nil_r. repeat split; try done.
    intros p Hp. by apply elem_of_nil in Hp.
Qed.

(** ** The capture stage *)

Lemma tracks_record_audio env filename duration fs channels :
  tracks (record_audio env filename duration fs channels)
    (fun _ evs => audio_events env filename duration fs channels evs).
Proof.
  unfold record_audio, py_int.
  apply tracks_bind_quiet; [apply tracks_print|]. intros _.
  eapply tracks_bind; [apply tracks_sd_rec| |..].
  - intros audio. apply tracks_bind_quiet; [apply tracks_sd_wait|]. intros _.
    eapply (tracks_bind _ _ _ silent
              (fun b evs => exists oa : bool,
                   evs = opt oa (EvOpenW filename) /\
                   (writable env filename = true -> oa = true))).
    + unfold wave_open.
      eapply tracks_bind;
        [apply tracks_open_for_writing|intros; apply tracks_ret| |].
      * intros e1 He1. exact He1.
      * intros b e1 e2 He1 [-> ->]. rewrite app_nil_r. exact He1.
    + intros wf.
      apply tracks_bind_silent; [apply tracks_setnchannels| |done]. intros wf1.
      apply tracks_bind_silent; [apply tracks_setsampwidth| |done]. intros wf2.
      apply tracks_bind_silent; [apply tracks_setframerate| |done]. intros wf3.
      apply tracks_bind_silent; [apply tracks_writeframes| |done]. intros _.
      eapply tracks_weaken; [apply tracks_print|]. by intros b evs [_ ->].
    + intros e1 [-> Hb]. exists false. split; [done|]. intros Hw.
      by rewrite Hw in Hb.
    + intros b e1 e2 [-> Hb] ->. rewrite app_nil_r. exists true.
      split; [done|]. done.
  - intros e1 [-> Hb]. exists false, false. repeat split; try done.
  - intros b e1 e2 [-> Hb] (oa & -> & Hoa). exists true, oa.
    repeat split; try done.
Qed.

Lemma tracks_for_range (n : nat) (body : M unit) (e : event) :
  tracks body (fun _ evs => evs = [e]) ->
  tracks (for_range n body) (fun _ evs => exists k, evs = replicate k e).
Proof.
  intros Hbody. induction n as [|n IH]; cbn [for_range].
  - eapply tracks_weaken; [apply tracks_ret|].
    intros b evs [_ ->]. by exists 0%nat.
  - eapply tracks_bind; [exact Hbody|intros; exact IH| |].
    + intros e1 ->. by exists 1%nat.
    + intros b e1 e2 -> [k ->]. by exists (S k).
Qed.

Lemma tracks_record_screen env filename duration fps :
  tracks (record_screen env filename duration fps)
    (fun _ evs => screen_events env filename evs).
Proof.
  unfold record_screen.
  eapply tracks_bind; [apply tracks_VideoWriter_open| |..].
  - intros out. apply tracks_bind_quiet; [apply tracks_print|]. intros _.
    eapply (tracks_bind _ _ _ quiet
              (fun _ evs => exists k, evs = replicate k EvShot)).
    + apply tracks_for_range.
      eapply tracks_bind;
        [apply tracks_pyautogui_screenshot
        |intros; apply tracks_VideoWriter_write| |].
      * by intros e1 ->.
      * by intros b e1 e2 -> [_ ->].
    + intros _. apply tracks_bind_quiet; [apply tracks_VideoWriter_release|].
      intros _. apply tracks_print.
    + intros e1 He1. exact He1.
    + intros b e1 e2 He1 [_ ->]. by rewrite app_nil_r.
  - by intros e1 [? _].
  - intros b e1 e2 [_ ->] [k ->]. by exists k.
Qed.

(** ** Termination of the capture tasks *)

Lemma terminates_bind {A B} (c : M A) (k : A -> M B) :
  terminates c -> (forall a, terminates (k a)) -> terminates (c ≫= k).
Proof.
  intros Hc Hk w. specialize (Hc w). unfold mbind, M_bind.
  destruct (c w) as [[a|e|] w1]; cbn [fst] in *; [apply Hk|done|done].
Qed.

Ltac ends :=
  let w := fresh "w" in
  intros w; case_all; discriminate.

Lemma terminates_for_range (n : nat) (body : M unit) :
  terminates body -> terminates (for_range n body).
Proof.
  intros Hbody. induction n as [|n IH]; cbn [for_range]; [ends|].
  by apply terminates_bind.
Qed.

Lemma terminates_record_audio env filename duration fs channels :
  terminates (record_audio env filename duration fs channels).
Proof.
  unfold record_audio.
  apply terminates_bind; [ends|]. intros _.
  apply terminates_bind.
  { unfold sd_rec, emit, modify, raise, mbind, M_bind, mret, M_ret. ends. }
  intros audio. apply terminates_bind; [ends|]. intros _.
  apply terminates_bind.
  { unfold wave_open, open_for_writing, emit, modify, raise, mbind, M_bind,
      mret, M_ret. ends. }
  intros wf. apply terminates_bind; [unfold setnchannels, raise; ends|].
  intros wf1. apply terminates_bind; [unfold setsampwidth, raise; ends|].
  intros wf2. apply terminates_bind; [unfold setframerate, raise; ends|].
  intros wf3. apply terminates_bind; [unfold writeframes, modify, raise; ends|].
  intros _. ends.
Qed.

Lemma terminates_record_screen env filename duration fps :
  terminates (record_screen env filename duration fps).
Proof.
  unfold record_screen.
  apply terminates_bind.
  { unfold VideoWriter_open, emit, modify, mbind, M_bind, mret, M_ret. ends. }
  intros out. apply terminates_bind; [ends|]. intros _.
  apply terminates_bind.
  { apply terminates_for_range. apply terminates_bind.
    - unfold pyautogui_screenshot, get, emit, elapse, modify, lift,
        mbind, M_bind. ends.
    - intros img. unfold VideoWriter_write, modify, mret, M_ret. ends. }
  intros _. apply terminates_bind; [ends|]. intros _. ends.
Qed.

(** The real capture tasks: the coordinator returns when both have ended. *)
Lemma record_audio_and_screen_waits env audio_file video_file duration w :
  let wa := snd (record_audio env audio_file duration default_fs
                              default_channels w) in
  let wv := snd (record_screen env video_file duration default_fps
                               (set_now (now w) wa)) in
  exists w',
    record_audio_and_screen env audio_file video_file duration w
    = (Ok (audio_file, video_file), w') /\
    now w' = Z.max (Z.max (now w) (now wa)) (now wv).
Proof.
  apply (join_instant
           (fun filename duration =>
              record_audio env filename duration default_fs default_channels)
           (fun filename duration =>
              record_screen env filename duration default_fps)).
  - apply terminates_record_audio.
  - apply terminates_record_screen.
Qed.

Lemma tracks_Thread_start {A} (target : M A) (L : bool -> list event -> Prop) :
  tracks target L -> terminates target ->
  tracks (Thread_start target) (fun b evs => b = true /\ exists b', L b' evs).
Proof.
  intros Ht Hterm w. specialize (Hterm w).
  destruct (Ht w) as (evs & Htr & HL & Hkeep & Hw).
  unfold Thread_start. exists evs.
  destruct (target w) as [[a|e|] w1]; world_simpl; cbn [is_ok] in *;
    [| |done]; repeat split; eauto.
Qed.

Lemma tracks_record_audio_and_screen env audio_file video_file duration :
  tracks (record_audio_and_screen env audio_file video_file duration)
    (fun b evs => b = true /\
                  capture_events env duration audio_file video_file evs).
Proof.
  unfold record_audio_and_screen, record_audio_and_screen_with.
  eapply tracks_bind.
  { apply tracks_Thread_start;
      [apply tracks_record_audio|apply terminates_record_audio]. }
  { intros audio_thread.
    eapply (tracks_bind _ _
              (fun b evs => b = true /\ screen_events env video_file evs)
              quiet
              (fun b evs => b = true /\ screen_events env video_file evs)).
    - eapply tracks_weaken.
      + apply tracks_Thread_start;
          [apply tracks_record_screen|apply terminates_record_screen].
      + intros b evs [-> [b' H]]. done.
    - intros video_thread.
      apply tracks_bind_quiet; [apply tracks_Thread_join|]. intros _.
      apply tracks_bind_quiet; [apply tracks_Thread_join|]. intros _.
      apply tracks_ret.
    - by intros e1 [? _].
    - intros b e1 e2 [_ He1] [-> ->]. rewrite app_nil_r. done. }
  - by intros e1 [? _].
  - intros b e1 e2 [_ [b' (ra & oa & -> & Hra & Hoa)]] [-> [k ->]].
    split; [done|]. exists ra, oa, k. rewrite <- app_assoc.
    split; [done|]. split; [|done].
    intros Hd. apply Hra. unfold default_fs. lia.
Qed.

(** ** The later stages *)

Lemma tracks_transcribe env audio_path model_name :
  tracks (transcribe env audio_path model_name)
    (fun b evs =>
       if b then evs = [EvLoadModel model_name; EvRead audio_path]
       else exists full, full = [EvLoadModel model_name; EvRead audio_path] /\
                         evs `prefix_of` full).
Proof.
  apply tracks_events_intro. intros w.
  unfold transcribe, whisper_load_model, model_transcribe, emit, modify, lift,
    get, raise, mbind, M_bind, mret, M_ret.
  destruct (whisper_load env model_name); world_simpl;
    [destruct (files w !! audio_path);
       [destruct (whisper_run env c)|]|];
    world_simpl; cbn [is_ok].
  - exists [EvLoadModel model_name; EvRead audio_path].
    rewrite <- app_assoc. repeat split; done.
  - exists [EvLoadModel model_name; EvRead audio_path].
    rewrite <- app_assoc. repeat split; try done. by eexists.
  - exists [EvLoadModel model_name]. repeat split; try done.
    eexists. split; [done|]. by exists [EvRead audio_path].
  - exists [EvLoadModel model_name]. repeat split; try done.
    eexists. split; [done|]. by exists [EvRead audio_path].
Qed.

Lemma tracks_ChatCompletion_create env model messages max_tokens temperature :
  tracks (ChatCompletion_create env model messages max_tokens temperature)
    (fun _ evs => exists rq, evs = [EvApi rq]).
Proof.
  apply tracks_events_intro. intros w.
  unfold ChatCompletion_create, get, emit, modify, lift, mbind, M_bind.
  world_simpl. eexists [EvApi _].
  match goal with |- context [chat_create env ?rq] =>
    destruct (chat_create env rq)
  end; world_simpl; repeat split; try done; by eexists.
Qed.

Lemma tracks_summarize_text env text max_tokens model :
  tracks (summarize_text env text max_tokens model)
    (fun b evs =>
       if b then exists rq, evs = [EvApi rq]
       else exists full, (exists rq, full = [EvApi rq]) /\ evs `prefix_of` full).
Proof.
  unfold summarize_text.
  apply tracks_bind_quiet; [unfold os_getenv; apply tracks_ret|].
  intros api_key.
  assert (Hnone : exists full : list event,
             (exists rq, full = [EvApi rq]) /\ [] `prefix_of` full).
  { exists [EvApi {| rq_key := None; rq_model := model; rq_messages := [];
                     rq_max_tokens := max_tokens;
                     rq_temperature := QArith_base.Qmake 3 10 |}].
    split; [by eexists|apply prefix_nil]. }
  destruct (py_not api_key).
  - eapply tracks_weaken; [apply (tracks_raise (A := string))|].
    by intros b evs [-> ->].
  - apply tracks_bind_quiet; [unfold modify; no_event|]. intros _.
    eapply tracks_bind;
      [apply tracks_ChatCompletion_create|intros; apply tracks_lift| |].
    + intros e1 [rq ->]. eexists. split; [by eexists|done].
    + intros b e1 e2 [rq ->] ->. rewrite app_nil_r.
      destruct b; [by eexists|]. eexists. split; [by eexists|done].
Qed.

Lemma tracks_open_w env path :
  tracks (open_w env path)
    (fun b evs =>
       if b then evs = [EvOpenW path]
       else exists full, full = [EvOpenW path] /\ evs `prefix_of` full).
Proof.
  unfold open_w.
  eapply tracks_bind;
    [apply tracks_open_for_writing|intros; apply tracks_ret| |].
  - intros e1 [-> _]. eexists. split; [done|apply prefix_nil].
  - intros b e1 e2 [-> _] [-> ->]. by rewrite app_nil_r.
Qed.

Lemma tracks_track_loop env fuel : forall end_time interval records,
  tracks (track_loop env fuel end_time interval records)
    (fun _ evs => exists n, evs = replicate n EvQuery).
Proof.
  induction fuel as [|fuel IH]; intros end_time interval records;
    cbn [track_loop].
  - unfold out_of_fuel. apply tracks_events_intro. intros w. exists [].
    world_simpl. rewrite app_nil_r. repeat split; try done. by exists 0%nat.
  - apply tracks_bind_quiet; [apply tracks_time_time|]. intros t.
    destruct (t <? end_time).
    + eapply (tracks_bind _ _ (fun _ evs => evs = [EvQuery])
                (fun _ evs => exists n, evs = replicate n EvQuery));
        [apply tracks_getActiveWindow| |..].
      * intros win. apply tracks_bind_quiet; [apply tracks_time_time|].
        intros ts.
        apply tracks_bind_silent;
          [apply tracks_time_sleep| |cbn beta; by exists 0%nat].
        intros _. apply IH.
      * intros e1 ->. by exists 1%nat.
      * intros b e1 e2 -> [n ->]. by exists (S n).
    + eapply tracks_weaken; [apply tracks_ret|].
      intros b evs [_ ->]. by exists 0%nat.
Qed.

Lemma tracks_track_activity env fuel duration interval :
  tracks (track_activity env fuel duration interval)
    (fun b evs =>
       if b then exists n, evs = replicate n EvQuery
       else exists full, (exists n, full = replicate n EvQuery) /\
                         evs `prefix_of` full).
Proof.
  unfold track_activity.
  apply tracks_bind_quiet; [apply tracks_time_time|]. intros t.
  eapply tracks_weaken; [apply tracks_track_loop|].
  intros [] evs [n ->]; [by exists n|].
  eexists. split; [by exists n|done].
Qed.

(** ** The session *)

Lemma session_stages_inhabited env duration prefix :
  Forall (fun F : list event -> Prop => exists full, F full)
         (session_stages env duration prefix).
Proof.
  unfold session_stages.
  repeat first [apply List.Forall_nil | apply List.Forall_cons]; cbn beta.
  - exists ([EvRecord] ++ [EvOpenW (prefix +:+ "_audio.wav")]
            ++ opt (writable env (prefix +:+ "_screen.avi") && codec_ok env)
                   (EvOpenW (prefix +:+ "_screen.avi"))
            ++ replicate 0 EvShot).
    by exists true, true, 0%nat.
  - by eexists.
  - by eexists.
  - exists [EvApi {| rq_key := None; rq_model := ""; rq_messages := [];
                     rq_max_tokens := 0;
                     rq_temperature := QArith_base.Qmake 0 1 |}].
    by eexists.
  - by eexists.
  - by exists (replicate 0 EvQuery), 0%nat.
  - by eexists.
Qed.

Lemma tracks_run_session env fuel duration prefix :
  tracks (run_session env fuel duration prefix)
    (pipeline (session_stages env duration prefix)).
Proof.
  unfold run_session, session_stages.
  apply tracks_stage.
  { eapply tracks_weaken; [apply tracks_record_audio_and_screen|].
    by intros b evs [-> H]. }
  intros _. apply tracks_stage; [apply tracks_transcribe|]. intros transcript.
  apply tracks_stage; [apply tracks_open_w|]. intros tf.
  apply tracks_bind_silent; [apply tracks_file_write| |].
  2:{ pose proof (session_stages_inhabited env duration prefix) as H.
      apply pipeline_false_nil. do 3 apply Forall_inv_tail in H. exact H. }
  intros _. apply tracks_stage; [apply tracks_summarize_text|]. intros summary.
  apply tracks_stage; [apply tracks_open_w|]. intros sf.
  apply tracks_bind_silent; [apply tracks_file_write| |].
  2:{ pose proof (session_stages_inhabited env duration prefix) as H.
      apply pipeline_false_nil. do 5 apply Forall_inv_tail in H. exact H. }
  intros _. apply tracks_stage; [apply tracks_track_activity|]. intros activity.
  apply tracks_stage; [apply tracks_open_w|]. intros af.
  apply tracks_bind_quiet; [apply tracks_json_dump|]. intros _.
  apply tracks_bind_quiet; [apply tracks_print|]. intros _.
  eapply tracks_weaken; [apply tracks_ret|]. by intros b evs [_ ->].
Qed.

(** * main.py *)

(** ** File names *)

Lemma append_inj (prefix s1 s2 : string) :
  prefix +:+ s1 = prefix +:+ s2 -> s1 = s2.
Proof.
  induction prefix as [|c prefix IH]; cbn; [done|].
  intros H. injection H as H. by apply IH.
Qed.

Lemma session_files_NoDup prefix : NoDup (session_files prefix).
Proof.
  change (session_files prefix)
    with ((fun s => prefix +:+ s) <$>
          ["_audio.wav"; "_screen.avi"; "_transcript.txt"; "_summary.txt";
           "_activity.json"]).
  apply NoDup_fmap_2; [intros s1 s2; apply append_inj|].
  by apply (bool_decide_unpack _).
Qed.

(** ** Writes and reads of the stages *)

Lemma writes_replicate k e :
  writes [e] = [] -> writes (replicate k e) = [].
Proof.
  intros He. induction k as [|k IH]; [done|].
  change (replicate (S k) e) with ([e] ++ replicate k e).
  by rewrite writes_app, He, IH.
Qed.

Lemma reads_replicate k e :
  reads [e] = [] -> reads (replicate k e) = [].
Proof.
  intros He. induction k as [|k IH]; [done|].
  change (replicate (S k) e) with ([e] ++ replicate k e).
  by rewrite reads_app, He, IH.
Qed.





Lemma capture_writes_ok env duration a v full :
  capture_ok env duration a v ->
  capture_events env duration a v full -> writes full = [a; v].
Proof.
  intros (Hd & Hmic & Hwa & Hwv & Hcodec) (ra & oa & k & -> & Hra & Hoa).
  rewrite Hra, Hoa, Hwv, Hcodec by auto.
  rewrite !writes_app, writes_replicate by done. reflexivity.
Qed.

Lemma capture_reads env duration a v full :
  capture_events env duration a v full -> reads full = [].
Proof.
  intros (ra & oa & k & -> & _ & _).
  rewrite !reads_app, reads_replicate by done.
  by destruct ra, oa, (writable env v && codec_ok env).
Qed.



(** A session that returned went through every stage. *)
Lemma session_complete env duration prefix evs :
  pipeline (session_stages env duration prefix) true evs ->
  exists e0 rq n,
    capture_events env duration (prefix +:+ "_audio.wav")
                   (prefix +:+ "_screen.avi") e0 /\
    evs = e0 ++ [EvLoadModel "base"; EvRead (prefix +:+ "_audio.wav")]
          ++ [EvOpenW (prefix +:+ "_transcript.txt")]
          ++ [EvApi rq]
          ++ [EvOpenW (prefix +:+ "_summary.txt")]
          ++ replicate n EvQuery
          ++ [EvOpenW (prefix +:+ "_activity.json")].
Proof.
  unfold session_stages. cbn [pipeline].
  intros [[? _]|(e0 & r0 & -> & H0 & H)]; [done|].
  destruct H as [[? _]|(e1 & r1 & -> & -> & H)]; [done|].
  destruct H as [[? _]|(e2 & r2 & -> & -> & H)]; [done|].
  destruct H as [[? _]|(e3 & r3 & -> & [rq ->] & H)]; [done|].
  destruct H as [[? _]|(e4 & r4 & -> & -> & H)]; [done|].
  destruct H as [[? _]|(e5 & r5 & -> & [n ->] & H)]; [done|].
  destruct H as [[? _]|(e6 & r6 & -> & -> & ->)]; [done|].
  exists e0, rq, n. by rewrite !app_nil_r.
Qed.


Lemma mret_inv {A} (a b : A) (w w' : World) :
  (mret a : M A) w = (Ok b, w') -> a = b /\ w = w'.
Proof. intros H. by injection H. Qed.

(** What [run_session] returns, when it returns. *)
Lemma run_session_value env fuel duration prefix w paths w' :
  run_session env fuel duration prefix w = (Ok paths, w') ->
  paths = returned_paths prefix.
Proof.
  unfold run_session. intros H.
  repeat (apply bind_inv in H as (? & ? & _ & H)).
  by apply mret_inv in H as [<- _].
Qed.

Lemma capture_writes_audio env duration a v full :
  0 <= duration -> mic_ok env default_fs default_channels = true ->
  writable env a = true ->
  capture_events env duration a v full -> a ∈ writes full.
Proof.
  intros Hd Hmic Hwa (ra & oa & k & -> & Hra & Hoa).
  rewrite Hra, Hoa by auto. rewrite !writes_app. cbn. by left.
Qed.

(** The capture stage always returns. *)
Lemma record_audio_and_screen_returns env audio_file video_file duration w :
  exists w', record_audio_and_screen env audio_file video_file duration w
             = (Ok (audio_file, video_file), w').
Proof.
  unfold record_audio_and_screen, record_audio_and_screen_with.
  pose proof (terminates_record_audio env audio_file duration default_fs
                default_channels w) as Ha.
  destruct (record_audio env audio_file duration default_fs default_channels w)
    as [ra wa] eqn:Ea.
  pose proof (terminates_record_screen env video_file duration default_fps
                (set_now (now w) wa)) as Hv.
  destruct (record_screen env video_file duration default_fps
              (set_now (now w) wa)) as [rv wv] eqn:Ev.
  cbn [fst] in *.
  erewrite bind_ok; last first.
  { unfold Thread_start. rewrite Ea. by destruct ra. }
  erewrite bind_ok; last first.
  { unfold Thread_start. rewrite Ev. by destruct rv. }
  erewrite bind_ok by reflexivity. erewrite bind_ok by reflexivity.
  by eexists.
Qed.

Lemma open_w_ok env path w :
  writable env path = true ->
  open_w env path w =
    (Ok path, set_files (<[path := CText ""]>
                           (files (set_trace (trace w ++ [EvOpenW path]) w)))
                (set_trace (trace w ++ [EvOpenW path]) w)).
Proof.
  intros Hw. unfold open_w, open_for_writing. rewrite Hw. reflexivity.
Qed.

Lemma transcribe_ok env audio_path w c d :
  whisper_load env "base" = Returns tt ->
  files w !! audio_path = Some c ->
  whisper_run env c = Returns d ->
  exists w', transcribe env audio_path "base" w
             = (Ok (dict_get d "text" (PStr "")), w').
Proof.
  intros Hl Hf Hr. eexists.
  unfold transcribe, whisper_load_model, model_transcribe, emit, modify, lift,
    get, mbind, M_bind, mret, M_ret.
  world_simpl. rewrite Hl. world_simpl. rewrite Hf. world_simpl. rewrite Hr.
  reflexivity.
Qed.

Lemma summarize_text_ok env text max_tokens model w key :
  environ env !! "OPENAI_API_KEY" = Some key -> key <> "" ->
  (forall rq, exists response s,
      chat_create env rq = Returns response /\
      reply_content response = Returns s) ->
  exists s w', summarize_text env text max_tokens model w = (Ok s, w').
Proof.
  intros Hkey Hne Hchat.
  unfold summarize_text, os_getenv, ChatCompletion_create, emit, modify, lift,
    get, mbind, M_bind, mret, M_ret.
  rewrite Hkey. cbn [py_not]. rewrite bool_decide_eq_false_2 by done.
  world_simpl.
  match goal with |- context [chat_create env ?rq] =>
    destruct (Hchat rq) as (response & s & -> & Hs)
  end.
  world_simpl. rewrite Hs. by eexists _, _.
Qed.

(** In a well-behaved environment, with fuel for the sampling loop,
    [run_session] returns. *)
Lemma run_session_returns env fuel duration prefix w :
  well_behaved env duration ->
  duration < Z.of_nat fuel ->
  exists w', run_session env fuel duration prefix w
             = (Ok (returned_paths prefix), w').
Proof.
  intros [Hhz Hd Hwr Hmic Hload Hwhisper (key & Hkey & Hne) Hchat Hwin Hq Hs]
         Hfuel.
  destruct (run_session env fuel duration prefix w) as [r w'] eqn:E.
  unfold run_session in E.
  (* capture *)
  destruct (record_audio_and_screen_returns env (prefix +:+ "_audio.wav")
              (prefix +:+ "_screen.avi") duration w) as [w1 H1].
  destruct (tracks_record_audio_and_screen env (prefix +:+ "_audio.wav")
              (prefix +:+ "_screen.avi") duration w)
    as (e0 & _ & [_ Hcap] & _ & Hpresent).
  rewrite H1 in Hpresent. cbn [snd] in Hpresent.
  assert (Haudio : is_Some (files w1 !! (prefix +:+ "_audio.wav"))).
  { apply Hpresent. by eapply capture_writes_audio. }
  destruct Haudio as [c Hc].
  erewrite bind_ok in E by exact H1.
  (* transcription *)
  destruct (Hwhisper c) as (d & s & Hrun & Htext).
  destruct (transcribe_ok env _ w1 c d Hload Hc Hrun) as [w2 H2].
  rewrite Htext in H2.
  erewrite bind_ok in E by exact H2.
  erewrite bind_ok in E by (by apply open_w_ok).
  erewrite bind_ok in E by reflexivity.
  (* summary *)
  match type of E with (summarize_text env ?t ?m ?md ≫= _) ?w3 = _ =>
    destruct (summarize_text_ok env t m md w3 key Hkey Hne Hchat)
      as (summary & w4 & H4)
  end.
  erewrite bind_ok in E by exact H4.
  erewrite bind_ok in E by (by apply open_w_ok).
  erewrite bind_ok in E by reflexivity.
  (* activity *)
  match type of E with (track_activity env fuel duration ?i ≫= _) ?w5 = _ =>
    destruct (track_loop_outcome env i Hhz Hq Hs fuel
                (now w5 + duration * hz env) [] w5 ltac:(lia)
                ltac:(unfold default_interval; nia))
      as [(activity & w6 & H6 & _) | (e & j & _ & He & _)]
  end.
  2:{ match type of He with active_window env ?k = _ =>
        destruct (Hwin k) as [r' Hr']
      end. congruence. }
  cbn [app] in H6.
  erewrite bind_ok in E by (rewrite track_activity_unfold; exact H6).
  erewrite bind_ok in E by (by apply open_w_ok).
  erewrite bind_ok in E by reflexivity.
  erewrite bind_ok in E by reflexivity.
  injection E as <- <-. by eexists.
Qed.

Lemma pair_with_snd {A B} (x : A * B) (a : A) : fst x = a -> x = (a, snd x).
Proof. intros <-. by destruct x. Qed.

Lemma studio_well_behaved : well_behaved studio 1.
Proof.
  split; try done.
  - intros c. by eexists _, _.
  - exists "sk-test". split; [reflexivity|discriminate].
  - intros rq. eexists _, _. split; reflexivity.
  - intros k. cbn. unfold unfocused_once. destruct (k =? 1)%nat; by eexists.
Qed.

(** C1, as the code has it.  For every duration and prefix, whenever
    [run_session] returns, it returns four paths: audio, video, transcript
    and summary, each derived from the prefix; and it does return when the
    environment is well behaved and the sampling loop has its fuel.  The
    activity path is not part of the value. *)
Theorem run_session_returns_four_paths env fuel duration prefix w :
  (forall paths w',
      run_session env fuel duration prefix w = (Ok paths, w') ->
      paths = [prefix +:+ "_audio.wav"; prefix +:+ "_screen.avi";
               prefix +:+ "_transcript.txt"; prefix +:+ "_summary.txt"]) /\
  (well_behaved env duration -> duration < Z.of_nat fuel ->
   exists w',
     run_session env fuel duration prefix w =
     (Ok [prefix +:+ "_audio.wav"; prefix +:+ "_screen.avi";
          prefix +:+ "_transcript.txt"; prefix +:+ "_summary.txt"], w')).
Proof.
  split.
  - intros paths w'. apply run_session_value.
  - apply run_session_returns.
Qed.

Lemma run_session_returns_four_paths_witness :
  exists w',
    run_session studio 3 1 "t" world0 =
    (Ok ["t_audio.wav"; "t_screen.avi"; "t_transcript.txt"; "t_summary.txt"],
     w').
Proof.
  apply (run_session_returns_four_paths studio 3 1 "t" world0).
  - exact studio_well_behaved.
  - simpl. lia.
Defined.

(** C1, as stated, fails: the session with prefix ["t"] returns four
    paths, and with no fuel does it return the five. *)
Lemma run_session_omits_activity_path :
  fst (run_session studio 3 1 "t" world0) =
    Ok ["t_audio.wav"; "t_screen.avi"; "t_transcript.txt"; "t_summary.txt"] /\
  forall fuel,
    fst (run_session studio fuel 1 "t" world0) <>
    Ok ["t_audio.wav"; "t_screen.avi"; "t_transcript.txt"; "t_summary.txt";
        "t_activity.json"].
Proof.
  split; [vm_compute; reflexivity|].
  intros fuel H.
  destruct (run_session studio fuel 1 "t" world0) as [r w'] eqn:E.
  cbn [fst] in H. subst r. apply run_session_value in E. discriminate E.
Qed.







(** C7, as the code has it.  For every run of [run_session] that returns
    and in which both capture tasks could create their files, exactly the
    five files [<prefix>_audio.wav], [<prefix>_screen.avi],
    [<prefix>_transcript.txt], [<prefix>_summary.txt] and
    [<prefix>_activity.json] are opened for writing, each once (the files
    written are the five, up to the order in which the two capture tasks
    create theirs), and all five exist afterwards; the only file read is
    the audio file, read once by the transcription. *)
Theorem run_session_files env fuel duration prefix w paths w' :
  capture_ok env duration (prefix +:+ "_audio.wav") (prefix +:+ "_screen.avi") ->
  run_session env fuel duration prefix w = (Ok paths, w') ->
  exists evs,
    trace w' = trace w ++ evs /\
    writes evs ≡ₚ session_files prefix /\
    NoDup (session_files prefix) /\
    reads evs = [prefix +:+ "_audio.wav"] /\
    forall p, p ∈ session_files prefix -> is_Some (files w' !! p).
Proof.
  intros Hcap Hrun.
  destruct (tracks_run_session env fuel duration prefix w)
    as (evs & Htr & Hp & _ & Hpresent).
  rewrite Hrun in Htr, Hp, Hpresent. cbn [fst snd is_ok] in *.
  apply session_complete in Hp as (e0 & rq & n & He0 & ->).
  assert (Hw : writes (e0 ++ [EvLoadModel "base"; EvRead (prefix +:+ "_audio.wav")]
                       ++ [EvOpenW (prefix +:+ "_transcript.txt")]
                       ++ [EvApi rq]
                       ++ [EvOpenW (prefix +:+ "_summary.txt")]
                       ++ replicate n EvQuery
                       ++ [EvOpenW (prefix +:+ "_activity.json")])
               = session_files prefix).
  { rewrite !writes_app, writes_replicate by done.
    by rewrite (capture_writes_ok _ _ _ _ _ Hcap He0). }
  eexists. split; [exact Htr|]. split; [by rewrite Hw|].
  split; [apply session_files_NoDup|]. split.
  - rewrite !reads_app, reads_replicate by done.
    by rewrite (capture_reads _ _ _ _ _ He0).
  - intros p Hp. apply Hpresent. by rewrite Hw.
Qed.

Lemma run_session_files_witness :
  exists evs,
    trace (snd (run_session studio 3 1 "t" world0)) = trace world0 ++ evs /\
    writes evs ≡ₚ session_files "t" /\
    NoDup (session_files "t") /\
    reads evs = ["t_audio.wav"] /\
    forall p, p ∈ session_files "t" ->
              is_Some (files (snd (run_session studio 3 1 "t" world0)) !! p).
Proof.
  apply (run_session_files studio 3 1 "t" world0 (returned_paths "t")).
  - unfold capture_ok. repeat split; try reflexivity. lia.
  - apply pair_with_snd. vm_compute. reflexivity.
Defined.

(** C7, as stated, fails twice: a run that returns has read the audio
    file back; and a run whose video writer could not be opened returns
    all the same, with four files written and no video file. *)
Lemma run_session_reads_audio_and_may_lack_video :
  (is_ok (fst (run_session studio 3 1 "t" world0)) = true /\
   reads (trace (snd (run_session studio 3 1 "t" world0))) = ["t_audio.wav"]) /\
  (is_ok (fst (run_session studio_without_codec 3 1 "t" world0)) = true /\
   writes (trace (snd (run_session studio_without_codec 3 1 "t" world0)))
   = ["t_audio.wav"; "t_transcript.txt"; "t_summary.txt"; "t_activity.json"] /\
   files (snd (run_session studio_without_codec 3 1 "t" world0))
     !! "t_screen.avi" = None).
Proof. repeat split; vm_compute; reflexivity. Qed.

(** * recorder.py: what the audio file holds *)

Lemma record_audio_effect env filename duration fs channels w :
  0 <= duration * fs -> 0 < fs -> 0 < channels ->
  mic_ok env fs channels = true -> writable env filename = true ->
  exists w',
    record_audio env filename duration fs channels w = (Ok tt, w') /\
    files w' =
      <[filename :=
          CWav {| wav_nchannels := channels; wav_sampwidth := 2;
                  wav_framerate := fs; wav_nframes := duration * fs;
                  wav_data := tobytes (recorded env (duration * fs) channels) |}]>
        (files w) /\
    trace w' = trace w ++ [EvRecord; EvOpenW filename] /\
    now w' = now w + rec_time env /\
    n_shot w' = n_shot w.
Proof.
  intros Hfr Hfs Hch Hmic Hwr.
  unfold record_audio, setframerate, py_int, py_round.
  assert (Hfr' : (duration * fs <? 0) = false) by (apply Z.ltb_ge; lia).
  assert (Hc1 : (channels <? 1) = false) by (apply Z.ltb_ge; lia).
  assert (Hc0 : (channels =? 0) = false) by (apply Z.eqb_neq; lia).
  assert (Hf0 : (fs <=? 0) = false) by (apply Z.leb_gt; lia).
  assert (Hf1 : (fs =? 0) = false) by (apply Z.eqb_neq; lia).
  assert (Hlen : Z.of_nat (length (recorded env (duration * fs) channels))
                 = duration * fs).
  { unfold recorded. rewrite length_map, length_seq. lia. }
  assert (Hall : Forall (fun frame => length frame = Z.to_nat channels)
                        (recorded env (duration * fs) channels)).
  { unfold recorded. apply Forall_map, Forall_forall. intros i _. cbn.
    by rewrite length_map, length_seq. }
  eexists. split.
  { unfold sd_rec, sd_wait, wave_open, open_for_writing, setnchannels,
      setsampwidth, writeframes, print, emit, elapse, modify.
    unfold mbind, M_bind, mret, M_ret.
    rewrite Hfr', Hmic. cbn [negb]. rewrite Hwr, Hc1.
    cbn [ww_nchannels ww_sampwidth ww_framerate ww_path
         Z.ltb Z.compare orb Pos.compare Pos.compare_cont].
    rewrite Hf0. cbn [ww_nchannels ww_sampwidth ww_framerate ww_path].
    rewrite Hc0, Hf1. cbn [Z.eqb]. reflexivity. }
  world_simpl. rewrite insert_insert_eq. fold (recorded env (duration * fs) channels).
  rewrite (length_tobytes _ _ Hall).
  rewrite Nat2Z.inj_mul, Hlen, Nat2Z.inj_mul, Z2Nat.id by lia.
  replace (duration * fs * (channels * Z.of_nat 2))
    with ((duration * fs) * (2 * channels)) by lia.
  rewrite Z.div_mul by lia. rewrite <- app_assoc. done.
Qed.

Lemma wrap16_range (x : Z) : -32768 <= wrap16 x < 32768.
Proof. unfold wrap16. pose proof (Z.mod_pos_bound (x + 32768) 65536). lia. Qed.

Lemma int16_bytes_range (s : Z) :
  Forall (fun b => 0 <= b < 256) (int16_bytes s).
Proof.
  unfold int16_bytes.
  change 255 with (Z.ones 8). rewrite !Z.land_ones by lia.
  repeat apply List.Forall_cons; [| |apply List.Forall_nil];
    apply Z.mod_pos_bound; lia.
Qed.

Lemma int16_round_trip (s : Z) :
  -32768 <= s < 32768 ->
  wrap16 (Z.land s 255 + 256 * Z.land (Z.shiftr s 8) 255) = s.
Proof.
  intros Hs. change 255 with (Z.ones 8).
  rewrite !Z.land_ones, Z.shiftr_div_pow2 by lia.
  change (2 ^ 8) with 256.
  rewrite <- (Z.rem_mul_r s 256 256) by lia.
  unfold wrap16. change (256 * 256) with 65536.
  rewrite Zplus_mod_idemp_l. rewrite Z.mod_small by lia. lia.
Qed.

Lemma frombuffer_frame (frame : list Z) (rest : list Z) :
  Forall (fun s => -32768 <= s < 32768) frame ->
  frombuffer (concat (map int16_bytes frame) ++ rest)
  = frame ++ frombuffer rest.
Proof.
  induction 1 as [|s frame Hs _ IH]; [done|].
  cbn [map concat int16_bytes app frombuffer].
  by rewrite int16_round_trip, IH.
Qed.

Lemma frombuffer_tobytes (audio : list (list Z)) :
  Forall (Forall (fun s => -32768 <= s < 32768)) audio ->
  frombuffer (tobytes audio) = concat audio.
Proof.
  unfold tobytes. induction 1 as [|frame audio Hf _ IH]; [done|].
  cbn [map concat]. by rewrite frombuffer_frame, IH.
Qed.

Lemma tobytes_range (audio : list (list Z)) :
  Forall (fun b => 0 <= b < 256) (tobytes audio).
Proof.
  unfold tobytes. apply Forall_concat, Forall_map, Forall_forall.
  intros frame _. apply Forall_concat, Forall_map, Forall_forall.
  intros s _. apply int16_bytes_range.
Qed.

Lemma recorded_range env frames channels :
  Forall (Forall (fun s => -32768 <= s < 32768)) (recorded env frames channels).
Proof.
  unfold recorded. apply Forall_map, Forall_forall. intros i _.
  apply Forall_map, Forall_forall. intros c _. apply wrap16_range.
Qed.

(** X1.  The data of the WAV file that [record_audio] writes encode the
    captured samples without loss: every byte lies in 0..255, and the
    bytes read back as 16-bit little-endian integers are the samples of
    the recording, frame after frame and, within a frame, channel after
    channel. *)
Theorem record_audio_samples_round_trip env filename duration fs channels w :
  0 <= duration * fs -> 0 < fs -> 0 < channels ->
  mic_ok env fs channels = true -> writable env filename = true ->
  exists w' wav,
    record_audio env filename duration fs channels w = (Ok tt, w') /\
    files w' !! filename = Some (CWav wav) /\
    Forall (fun b => 0 <= b < 256) (wav_data wav) /\
    frombuffer (wav_data wav)
    = concat (map (fun i => map (fun c => wrap16 (mic_sample env i c))
                               (seq 0 (Z.to_nat channels)))
                  (seq 0 (Z.to_nat (duration * fs)))).
Proof.
  intros Hfr Hfs Hch Hmic Hwr.
  destruct (record_audio_effect env filename duration fs channels w)
    as (w' & Hrun & Hf & _); try done.
  exists w'. eexists. split; [exact Hrun|].
  split; [by rewrite Hf, lookup_insert_eq|]. cbn [wav_data].
  split; [apply tobytes_range|].
  apply frombuffer_tobytes, recorded_range.
Qed.

Lemma record_audio_samples_round_trip_witness :
  exists w' wav,
    record_audio studio "t_audio.wav" 1 4 2 world0 = (Ok tt, w') /\
    files w' !! "t_audio.wav" = Some (CWav wav) /\
    Forall (fun b => 0 <= b < 256) (wav_data wav) /\
    frombuffer (wav_data wav)
    = concat (map (fun i => map (fun c => wrap16 (mic_sample studio i c))
                               (seq 0 (Z.to_nat 2)))
                  (seq 0 (Z.to_nat (1 * 4)))).
Proof.
  apply (record_audio_samples_round_trip studio "t_audio.wav" 1 4 2 world0).
  - lia.
  - lia.
  - lia.
  - reflexivity.
  - reflexivity.
Defined.

(** X2.  [record_audio] opens its file only once the recording is over:
    when the file cannot be created, the microphone has been recorded and
    the whole recording time has passed before the [OSError] is raised,
    and no file has changed. *)
Theorem record_audio_unwritable_after_recording env filename duration fs channels w :
  0 <= duration * fs ->
  mic_ok env fs channels = true -> writable env filename = false ->
  exists w',
    record_audio env filename duration fs channels w
      = (Raise (OSError filename), w') /\
    trace w' = trace w ++ [EvRecord] /\
    now w' = now w + rec_time env /\
    files w' = files w.
Proof.
  intros Hfr Hmic Hwr. eexists. split.
  { unfold record_audio, py_int, sd_rec, sd_wait, wave_open, open_for_writing,
      print, emit, elapse, modify, raise.
    unfold mbind, M_bind, mret, M_ret.
    assert (Hfr' : (duration * fs <? 0) = false) by (apply Z.ltb_ge; lia).
    rewrite Hfr', Hmic. cbn [negb]. rewrite Hwr. reflexivity. }
  world_simpl. done.
Qed.

Lemma record_audio_unwritable_after_recording_witness :
  exists w',
    record_audio studio_read_only "t_audio.wav" 1 4 2 world0
      = (Raise (OSError "t_audio.wav"), w') /\
    trace w' = trace world0 ++ [EvRecord] /\
    now w' = now world0 + rec_time studio_read_only /\
    files w' = files world0.
Proof.
  apply (record_audio_unwritable_after_recording studio_read_only
           "t_audio.wav" 1 4 2 world0).
  - lia.
  - reflexivity.
  - reflexivity.
Defined.

(** X3.  A negative number of frames makes [record_audio] raise
    [ValueError] before anything is recorded: no event, no time spent, no
    file changed. *)
Theorem record_audio_negative_duration env filename duration fs channels w :
  duration * fs < 0 ->
  exists w',
    record_audio env filename duration fs channels w = (Raise ValueError, w') /\
    trace w' = trace w /\ now w' = now w /\ files w' = files w.
Proof.
  intros Hneg. eexists. split.
  { unfold record_audio, py_int, sd_rec, print, modify, raise.
    unfold mbind, M_bind.
    assert (Hfr' : (duration * fs <? 0) = true) by (apply Z.ltb_lt; lia).
    rewrite Hfr'. reflexivity. }
  world_simpl. done.
Qed.

Lemma record_audio_negative_duration_witness :
  exists w',
    record_audio studio "t_audio.wav" (-1) 44100 2 world0
      = (Raise ValueError, w') /\
    trace w' = trace world0 /\ now w' = now world0 /\ files w' = files world0.
Proof.
  apply (record_audio_negative_duration studio "t_audio.wav" (-1) 44100 2
           world0).
  lia.
Defined.

Lemma record_audio_refused env filename duration fs channels w :
  mic_ok env fs channels = false ->
  exists e w',
    record_audio env filename duration fs channels w = (Raise e, w') /\
    files w' = files w /\ trace w' = trace w /\ now w' = now w.
Proof.
  intros Hmic.
  unfold record_audio, py_int, sd_rec, print, modify, raise, mbind, M_bind.
  rewrite Hmic. cbn [negb].
  destruct (duration * fs <? 0); by eexists _, _.
Qed.

(** * recorder.py: what the video file holds *)

Lemma add_frames_nil c : add_frames [] c = c.
Proof. destruct c as [| |[]|]; cbn; by rewrite ?app_nil_r. Qed.

Lemma add_frames_cons frame frames c :
  add_frames (frame :: frames) c = add_frames frames (add_frame frame c).
Proof. destruct c; cbn; try done. by rewrite <- app_assoc. Qed.

Lemma alter_add_frames_nil k (m : gmap string content) :
  alter (add_frames []) k m = m.
Proof. apply alter_id. intros c _. apply add_frames_nil. Qed.

Lemma alter_add_frames_cons frame frames k (m : gmap string content) :
  alter (add_frames frames) k (alter (add_frame frame) k m)
  = alter (add_frames (frame :: frames)) k m.
Proof.
  rewrite alter_alter_eq. apply alter_ext. intros c _. cbn.
  by rewrite add_frames_cons.
Qed.

Lemma capture_frame_ok env out w img :
  screenshot env (n_shot w) = Returns img ->
  capture_frame env out w =
    (Ok tt,
     set_files (if vw_opened out
                then alter (add_frame (cvtColor_BGR2RGB img)) (vw_path out) (files w)
                else files w)
       (set_trace (trace w ++ [EvShot])
          (set_now (now w + shot_time env (n_shot w))
             (set_n_shot (S (n_shot w)) w)))).
Proof.
  intros Himg.
  unfold capture_frame, pyautogui_screenshot, VideoWriter_write, get, modify,
    elapse, emit, lift, mbind, M_bind, mret, M_ret.
  world_simpl. rewrite Himg. by destruct (vw_opened out), w.
Qed.

Lemma capture_frame_raises env out w e :
  screenshot env (n_shot w) = Raises e ->
  capture_frame env out w =
    (Raise e,
     set_trace (trace w ++ [EvShot])
       (set_now (now w + shot_time env (n_shot w))
          (set_n_shot (S (n_shot w)) w))).
Proof.
  intros Himg.
  unfold capture_frame, pyautogui_screenshot, get, modify,
    elapse, emit, lift, mbind, M_bind.
  world_simpl. by rewrite Himg.
Qed.

Lemma shots_time_S env k n :
  shots_time env k (S n) = shot_time env k + shots_time env (S k) n.
Proof. reflexivity. Qed.

Lemma frames_of_S env k n img :
  screenshot env k = Returns img ->
  frames_of env k (S n) = cvtColor_BGR2RGB img :: frames_of env (S k) n.
Proof. intros H. unfold frames_of, shot_image. cbn. by rewrite H. Qed.

Lemma screen_loop_run env out (n : nat) : forall w,
  (forall i, (i < n)%nat ->
             exists img, screenshot env (n_shot w + i) = Returns img) ->
  exists w',
    for_range n (capture_frame env out) w = (Ok tt, w') /\
    n_shot w' = (n_shot w + n)%nat /\
    now w' = now w + shots_time env (n_shot w) n /\
    trace w' = trace w ++ replicate n EvShot /\
    files w' = if vw_opened out
               then alter (add_frames (frames_of env (n_shot w) n))
                          (vw_path out) (files w)
               else files w.
Proof.
  induction n as [|n IH]; intros w Hshots.
  - exists w. cbn [for_range replicate]. rewrite app_nil_r, Nat.add_0_r.
    unfold shots_time, frames_of. cbn. rewrite alter_add_frames_nil.
    repeat split; try done; try lia. by destruct (vw_opened out).
  - destruct (Hshots 0%nat ltac:(lia)) as [img Himg].
    rewrite Nat.add_0_r in Himg.
    cbn [for_range]. erewrite bind_ok by (by apply capture_frame_ok).
    edestruct IH as (w' & Hrun & Hn & Hnow & Htr & Hfs); last first.
    { exists w'. split; [exact Hrun|]. world_simpl.
      split; [lia|]. split; [rewrite Hnow, shots_time_S; lia|].
      split; [rewrite Htr, <- app_assoc; done|].
      rewrite Hfs. destruct (vw_opened out); [|done].
      rewrite (frames_of_S _ _ _ _ Himg). apply alter_add_frames_cons. }
    world_simpl. intros i Hi.
    replace (S (n_shot w) + i)%nat with (n_shot w + S i)%nat by lia.
    apply Hshots. lia.
Qed.

Lemma screen_loop_fails env out (k : nat) : forall (n : nat) w e,
  (k < n)%nat ->
  (forall i, (i < k)%nat ->
             exists img, screenshot env (n_shot w + i) = Returns img) ->
  screenshot env (n_shot w + k) = Raises e ->
  exists w',
    for_range n (capture_frame env out) w = (Raise e, w') /\
    n_shot w' = (n_shot w + S k)%nat /\
    now w' = now w + shots_time env (n_shot w) (S k) /\
    trace w' = trace w ++ replicate (S k) EvShot /\
    files w' = if vw_opened out
               then alter (add_frames (frames_of env (n_shot w) k))
                          (vw_path out) (files w)
               else files w.
Proof.
  induction k as [|k IH]; intros n w e Hk Hshots Hfail;
    (destruct n as [|n]; [lia|]); cbn [for_range].
  - rewrite Nat.add_0_r in Hfail.
    erewrite bind_raise by (by apply capture_frame_raises).
    eexists. split; [reflexivity|]. world_simpl.
    unfold shots_time, frames_of. cbn. rewrite alter_add_frames_nil.
    repeat split; try done; try lia. by destruct (vw_opened out).
  - destruct (Hshots 0%nat ltac:(lia)) as [img Himg].
    rewrite Nat.add_0_r in Himg.
    erewrite bind_ok by (by apply capture_frame_ok).
    edestruct (IH n) as (w' & Hrun & Hn & Hnow & Htr & Hfs); last first.
    { exists w'. split; [exact Hrun|]. world_simpl.
      split; [lia|]. split; [rewrite Hnow, (shots_time_S _ (n_shot w)); lia|].
      split; [rewrite Htr, <- app_assoc; done|].
      rewrite Hfs. destruct (vw_opened out); [|done].
      rewrite (frames_of_S _ _ _ _ Himg). apply alter_add_frames_cons. }
    + world_simpl.
      replace (S (n_shot w) + k)%nat with (n_shot w + S k)%nat by lia.
      exact Hfail.
    + world_simpl. intros i Hi.
      replace (S (n_shot w) + i)%nat with (n_shot w + S i)%nat by lia.
      apply Hshots. lia.
    + lia.
Qed.

Lemma record_screen_unfold env filename duration fps :
  record_screen env filename duration fps =
  (out ← VideoWriter_open env filename (VideoWriter_fourcc "X" "V" "I" "D")
                          fps (screen_size env) ;
   print ("Recording screen to " +:+ filename +:+ " for "
          +:+ pretty duration +:+ " seconds ...") ;;
   for_range (Z.to_nat (duration * fps)) (capture_frame env out) ;;
   VideoWriter_release out ;;
   print ("Screen recording saved: " +:+ filename)).
Proof. reflexivity. Qed.

Lemma VideoWriter_open_run env filename fourcc fps size w :
  exists out w1,
    VideoWriter_open env filename fourcc fps size w = (Ok out, w1) /\
    vw_path out = filename /\
    vw_opened out = writable env filename && codec_ok env /\
    files w1 = (if vw_opened out
                then <[filename := CAvi {| avi_fourcc := fourcc; avi_fps := fps;
                                           avi_size := size; avi_frames := [] |}]>
                       (files w)
                else files w) /\
    trace w1 = trace w ++ opt (vw_opened out) (EvOpenW filename) /\
    now w1 = now w /\ n_shot w1 = n_shot w.
Proof.
  unfold VideoWriter_open, emit, modify, mbind, M_bind, mret, M_ret.
  destruct (writable env filename && codec_ok env); eexists _, _;
    (split; [reflexivity|]); world_simpl; cbn [vw_path vw_opened opt];
    rewrite ?app_nil_r; done.
Qed.

(** The world that [record_screen] leaves when its screenshots succeed. *)
Lemma record_screen_effect env filename duration fps w :
  (forall i, (i < Z.to_nat (duration * fps))%nat ->
             exists img, screenshot env (n_shot w + i) = Returns img) ->
  exists w',
    record_screen env filename duration fps w = (Ok tt, w') /\
    n_shot w' = (n_shot w + Z.to_nat (duration * fps))%nat /\
    now w' = now w + shots_time env (n_shot w) (Z.to_nat (duration * fps)) /\
    trace w' = trace w
               ++ opt (writable env filename && codec_ok env) (EvOpenW filename)
               ++ replicate (Z.to_nat (duration * fps)) EvShot /\
    files w' =
      if writable env filename && codec_ok env
      then <[filename :=
               CAvi {| avi_fourcc := VideoWriter_fourcc "X" "V" "I" "D";
                       avi_fps := fps; avi_size := screen_size env;
                       avi_frames := frames_of env (n_shot w)
                                       (Z.to_nat (duration * fps)) |}]>
             (files w)
      else files w.
Proof.
  intros Hshots. rewrite record_screen_unfold.
  destruct (VideoWriter_open_run env filename
              (VideoWriter_fourcc "X" "V" "I" "D") fps (screen_size env) w)
    as (out & w1 & Hopen & Hpath & Hopened & Hfs1 & Htr1 & Hnow1 & Hn1).
  erewrite bind_ok by exact Hopen. erewrite bind_ok by reflexivity.
  edestruct (screen_loop_run env out (Z.to_nat (duration * fps)))
    as (w2 & Hrun & Hn2 & Hnow2 & Htr2 & Hfs2); last first.
  { erewrite bind_ok by exact Hrun. erewrite bind_ok by reflexivity.
    eexists. split; [reflexivity|]. world_simpl.
    rewrite Hn1 in *. rewrite Hnow1, Htr1, Hfs1, Hpath in *.
    rewrite <- Hopened. split; [done|]. split; [done|].
    split; [by rewrite Htr2, <- app_assoc|].
    rewrite Hfs2. destruct (vw_opened out); [|done].
    rewrite alter_insert_eq. done. }
  world_simpl. by rewrite Hn1.
Qed.

(** X4.  When the writer opens and every screenshot succeeds, the video
    file holds exactly the screenshots taken, in the order taken, each
    with its first and third channel swapped, under the codec XVID, the
    rate [fps] and the size of the screen. *)
Theorem record_screen_writes_screenshots env filename duration fps w :
  writable env filename = true -> codec_ok env = true ->
  (forall i, (i < Z.to_nat (duration * fps))%nat ->
             exists img, screenshot env (n_shot w + i) = Returns img) ->
  exists w',
    record_screen env filename duration fps w = (Ok tt, w') /\
    files w' !! filename =
      Some (CAvi {| avi_fourcc := VideoWriter_fourcc "X" "V" "I" "D";
                    avi_fps := fps; avi_size := screen_size env;
                    avi_frames :=
                      map (fun i => cvtColor_BGR2RGB (shot_image env i))
                          (seq (n_shot w) (Z.to_nat (duration * fps))) |}).
Proof.
  intros Hwr Hcodec Hshots.
  destruct (record_screen_effect env filename duration fps w Hshots)
    as (w' & Hrun & _ & _ & _ & Hfs).
  exists w'. split; [done|]. rewrite Hfs, Hwr, Hcodec. cbn [andb].
  by rewrite lookup_insert_eq.
Qed.

Lemma record_screen_writes_screenshots_witness :
  exists w',
    record_screen studio "t_screen.avi" 1 2 world0 = (Ok tt, w') /\
    files w' !! "t_screen.avi" =
      Some (CAvi {| avi_fourcc := VideoWriter_fourcc "X" "V" "I" "D";
                    avi_fps := 2; avi_size := screen_size studio;
                    avi_frames :=
                      map (fun i => cvtColor_BGR2RGB (shot_image studio i))
                          (seq (n_shot world0) (Z.to_nat (1 * 2))) |}).
Proof.
  apply (record_screen_writes_screenshots studio "t_screen.avi" 1 2 world0).
  - reflexivity.
  - reflexivity.
  - intros i _. by eexists.
Defined.

(** X5.  [record_screen] does not pace its loop: when every screenshot
    succeeds, the time it takes is the sum of the times of its
    [duration * fps] screenshots, whatever [duration] is. *)
Theorem record_screen_elapsed env filename duration fps w :
  (forall i, (i < Z.to_nat (duration * fps))%nat ->
             exists img, screenshot env (n_shot w + i) = Returns img) ->
  exists w',
    record_screen env filename duration fps w = (Ok tt, w') /\
    now w' - now w =
      foldr Z.add 0 (map (shot_time env)
                         (seq (n_shot w) (Z.to_nat (duration * fps)))).
Proof.
  intros Hshots.
  destruct (record_screen_effect env filename duration fps w Hshots)
    as (w' & Hrun & _ & Hnow & _).
  exists w'. split; [done|]. rewrite Hnow. unfold shots_time. lia.
Qed.

Lemma record_screen_elapsed_witness :
  exists w',
    record_screen studio "t_screen.avi" 1 2 world0 = (Ok tt, w') /\
    now w' - now world0 =
      foldr Z.add 0 (map (shot_time studio)
                         (seq (n_shot world0) (Z.to_nat (1 * 2)))).
Proof.
  apply (record_screen_elapsed studio "t_screen.avi" 1 2 world0).
  intros i _. by eexists.
Defined.

(** X6.  When [duration * fps] is not positive, [record_screen] takes no
    screenshot and no time and returns; it still leaves a video file
    without frames when the writer opens, and no file otherwise. *)
Theorem record_screen_nothing_to_capture env filename duration fps w :
  duration * fps <= 0 ->
  exists w',
    record_screen env filename duration fps w = (Ok tt, w') /\
    n_shot w' = n_shot w /\ now w' = now w /\
    (writable env filename && codec_ok env = true ->
     files w' !! filename =
       Some (CAvi {| avi_fourcc := VideoWriter_fourcc "X" "V" "I" "D";
                     avi_fps := fps; avi_size := screen_size env;
                     avi_frames := [] |})) /\
    (writable env filename && codec_ok env = false -> files w' = files w).
Proof.
  intros Hle.
  assert (Hn : Z.to_nat (duration * fps) = 0%nat) by lia.
  destruct (record_screen_effect env filename duration fps w)
    as (w' & Hrun & Hshot & Hnow & _ & Hfs).
  { rewrite Hn. lia. }
  rewrite Hn in *. exists w'. split; [done|].
  split; [lia|]. split; [unfold shots_time in Hnow; cbn in Hnow; lia|].
  split; intros Ho; rewrite Ho in Hfs; rewrite Hfs; [|done].
  by rewrite lookup_insert_eq.
Qed.

Lemma record_screen_nothing_to_capture_witness :
  exists w',
    record_screen studio "t_screen.avi" 0 20 world0 = (Ok tt, w') /\
    n_shot w' = n_shot world0 /\ now w' = now world0 /\
    (writable studio "t_screen.avi" && codec_ok studio = true ->
     files w' !! "t_screen.avi" =
       Some (CAvi {| avi_fourcc := VideoWriter_fourcc "X" "V" "I" "D";
                     avi_fps := 20; avi_size := screen_size studio;
                     avi_frames := [] |})) /\
    (writable studio "t_screen.avi" && codec_ok studio = false ->
     files w' = files world0).
Proof.
  apply (record_screen_nothing_to_capture studio "t_screen.avi" 0 20 world0).
  lia.
Defined.

(** X7.  A screenshot that raises ends [record_screen] with that
    exception, which is not caught: the screenshots before it have been
    written, in their order, and nothing after it is attempted. *)
Theorem record_screen_failure_leaves_partial_video env filename duration fps w k e :
  writable env filename = true -> codec_ok env = true ->
  (k < Z.to_nat (duration * fps))%nat ->
  (forall i, (i < k)%nat ->
             exists img, screenshot env (n_shot w + i) = Returns img) ->
  screenshot env (n_shot w + k) = Raises e ->
  exists w',
    record_screen env filename duration fps w = (Raise e, w') /\
    n_shot w' = (n_shot w + S k)%nat /\
    files w' !! filename =
      Some (CAvi {| avi_fourcc := VideoWriter_fourcc "X" "V" "I" "D";
                    avi_fps := fps; avi_size := screen_size env;
                    avi_frames :=
                      map (fun i => cvtColor_BGR2RGB (shot_image env i))
                          (seq (n_shot w) k) |}).
Proof.
  intros Hwr Hcodec Hk Hshots Hfail. rewrite record_screen_unfold.
  destruct (VideoWriter_open_run env filename
              (VideoWriter_fourcc "X" "V" "I" "D") fps (screen_size env) w)
    as (out & w1 & Hopen & Hpath & Hopened & Hfs1 & Htr1 & Hnow1 & Hn1).
  rewrite Hwr, Hcodec in Hopened. cbn [andb] in Hopened.
  rewrite Hopened in Hfs1.
  erewrite bind_ok by exact Hopen. erewrite bind_ok by reflexivity.
  match goal with |- exists _, (_ ≫= _) ?W = _ /\ _ =>
    destruct (screen_loop_fails env out k (Z.to_nat (duration * fps)) W e Hk)
      as (w2 & Hrun & Hn2 & _ & _ & Hfs2)
  end.
  - world_simpl. by rewrite Hn1.
  - world_simpl. by rewrite Hn1.
  - erewrite bind_raise by exact Hrun. exists w2. split; [done|].
    world_simpl. rewrite Hn1 in *. split; [done|].
    rewrite Hfs2, Hopened, Hpath, Hfs1, alter_insert_eq, lookup_insert_eq.
    done.
Qed.

Lemma record_screen_failure_leaves_partial_video_witness :
  exists w',
    record_screen studio_screen_lost "t_screen.avi" 1 20 world0
      = (Raise ScreenshotError, w') /\
    n_shot w' = (n_shot world0 + 3)%nat /\
    files w' !! "t_screen.avi" =
      Some (CAvi {| avi_fourcc := VideoWriter_fourcc "X" "V" "I" "D";
                    avi_fps := 20; avi_size := screen_size studio_screen_lost;
                    avi_frames :=
                      map (fun i => cvtColor_BGR2RGB
                                      (shot_image studio_screen_lost i))
                          (seq (n_shot world0) 2) |}).
Proof.
  apply (record_screen_failure_leaves_partial_video studio_screen_lost
           "t_screen.avi" 1 20 world0 2 ScreenshotError).
  - reflexivity.
  - reflexivity.
  - simpl. lia.
  - intros [|[|i]] Hi; [by eexists|by eexists|lia].
  - reflexivity.
Defined.

(** X8.  [record_screen] never checks that the writer opened: when the
    file or the codec cannot be opened it still takes every screenshot,
    spends their time, returns normally and leaves all files as they
    were. *)
Theorem record_screen_unopened_writer env filename duration fps w :
  writable env filename && codec_ok env = false ->
  (forall i, (i < Z.to_nat (duration * fps))%nat ->
             exists img, screenshot env (n_shot w + i) = Returns img) ->
  exists w',
    record_screen env filename duration fps w = (Ok tt, w') /\
    files w' = files w /\
    trace w' = trace w ++ replicate (Z.to_nat (duration * fps)) EvShot /\
    now w' - now w =
      foldr Z.add 0 (map (shot_time env)
                         (seq (n_shot w) (Z.to_nat (duration * fps)))).
Proof.
  intros Hclosed Hshots.
  destruct (record_screen_effect env filename duration fps w Hshots)
    as (w' & Hrun & _ & Hnow & Htr & Hfs).
  rewrite Hclosed in Htr, Hfs. exists w'. split; [done|]. split; [done|].
  split; [done|]. rewrite Hnow. unfold shots_time. lia.
Qed.

Lemma record_screen_unopened_writer_witness :
  exists w',
    record_screen studio_without_codec "t_screen.avi" 1 2 world0 = (Ok tt, w') /\
    files w' = files world0 /\
    trace w' = trace world0 ++ replicate (Z.to_nat (1 * 2)) EvShot /\
    now w' - now world0 =
      foldr Z.add 0 (map (shot_time studio_without_codec)
                         (seq (n_shot world0) (Z.to_nat (1 * 2)))).
Proof.
  apply (record_screen_unopened_writer studio_without_codec "t_screen.avi" 1 2
           world0).
  - reflexivity.
  - intros i _. by eexists.
Defined.

(** * The files that a computation may change *)

Lemma touches_bind {A B} (S : list string) (c : M A) (k : A -> M B)
    (Q : A -> Prop) :
  touches S c -> yields c Q -> (forall a, Q a -> touches S (k a)) ->
  touches S (c ≫= k).
Proof.
  intros Hc HQ Hk w p Hp. specialize (Hc w p Hp). unfold mbind, M_bind.
  destruct (c w) as [[a|e|] w1] eqn:E; cbn [snd] in *; try done.
  rewrite <- Hc. apply Hk; [|done]. by eapply HQ.
Qed.

Lemma touches_seq {A B} (S : list string) (c : M A) (k : A -> M B) :
  touches S c -> (forall a, touches S (k a)) -> touches S (c ≫= k).
Proof.
  intros Hc Hk. apply (touches_bind S c k (fun _ => True)); [done| |auto].
  by intros w a w' _.
Qed.

Lemma touches_mono {A} (S S' : list string) (c : M A) :
  S ⊆ S' -> touches S c -> touches S' c.
Proof. intros Hsub Hc w p Hp. apply Hc. intros Hin. by apply Hp, Hsub. Qed.

Ltac in_list := repeat first [ by left | right ].

Ltac sub_list :=
  let p := fresh "p" in let Hp := fresh "Hp" in
  intros p Hp;
  repeat (apply elem_of_cons in Hp as [->|Hp]; [in_list|]);
  by apply elem_of_nil in Hp.

Ltac same_files :=
  let w := fresh "w" in let p := fresh "p" in let Hp := fresh "Hp" in
  intros w p Hp; do 3 (case_all; world_simpl); try reflexivity.

Lemma touches_modify S (f : World -> World) :
  (forall w, files (f w) = files w) -> touches S (modify f).
Proof. intros Hf w p _. unfold modify. cbn [snd]. by rewrite Hf. Qed.

Lemma touches_ret {A} S (a : A) : touches S (mret a : M A).
Proof. same_files. Qed.
Lemma touches_raise {A} S (e : exn) : touches S (raise e : M A).
Proof. same_files. Qed.
Lemma touches_lift {A} S (r : result A) : touches S (lift r).
Proof. unfold lift. same_files. Qed.
Lemma touches_get S : touches S get.
Proof. same_files. Qed.
Lemma touches_print S s : touches S (print s).
Proof. same_files. Qed.
Lemma touches_emit S e : touches S (emit e).
Proof. same_files. Qed.
Lemma touches_elapse S dt : touches S (elapse dt).
Proof. same_files. Qed.
Lemma touches_time_time S : touches S time_time.
Proof. same_files. Qed.
Lemma touches_Thread_join S t : touches S (Thread_join t).
Proof. same_files. Qed.
Lemma touches_time_sleep S env secs : touches S (time_sleep env secs).
Proof.
  unfold time_sleep. destruct (secs <? 0); [apply touches_raise|].
  apply touches_seq; [apply touches_get|]. intros w0.
  apply touches_seq; [by apply touches_modify|]. intros _.
  apply touches_elapse.
Qed.
Lemma touches_getActiveWindow S env : touches S (getActiveWindow env).
Proof.
  unfold getActiveWindow.
  apply touches_seq; [apply touches_get|]. intros w0.
  apply touches_seq; [by apply touches_modify|]. intros _.
  apply touches_seq; [apply touches_elapse|]. intros _.
  apply touches_seq; [apply touches_emit|]. intros _. apply touches_lift.
Qed.

Lemma touches_pyautogui_screenshot S env : touches S (pyautogui_screenshot env).
Proof.
  unfold pyautogui_screenshot.
  apply touches_seq; [apply touches_get|]. intros w0.
  apply touches_seq; [by apply touches_modify|]. intros _.
  apply touches_seq; [apply touches_elapse|]. intros _.
  apply touches_seq; [apply touches_emit|]. intros _. apply touches_lift.
Qed.

Lemma touches_insert S path (c : content) :
  path ∈ S ->
  touches S (modify (fun w => set_files (<[path := c]> (files w)) w)).
Proof.
  intros Hin w p Hp. unfold modify. world_simpl.
  apply lookup_insert_ne. by intros ->.
Qed.

Lemma touches_alter S path (f : content -> content) :
  path ∈ S ->
  touches S (modify (fun w => set_files (alter f path (files w)) w)).
Proof.
  intros Hin w p Hp. unfold modify. world_simpl.
  apply lookup_alter_ne. by intros ->.
Qed.

Lemma touches_open_for_writing S env path c :
  path ∈ S -> touches S (open_for_writing env path c).
Proof.
  intros Hin. unfold open_for_writing. destruct (writable env path).
  - apply touches_seq; [apply touches_emit|]. intros _.
    by apply touches_insert.
  - apply touches_raise.
Qed.

Lemma touches_file_write S f v : f ∈ S -> touches S (file_write f v).
Proof.
  intros Hin. unfold file_write.
  destruct v; try apply touches_raise. by apply touches_alter.
Qed.

Lemma touches_json_dump S activity f : f ∈ S -> touches S (json_dump activity f).
Proof. intros Hin. by apply touches_insert. Qed.

Lemma touches_open_w S env path : path ∈ S -> touches S (open_w env path).
Proof.
  intros Hin. unfold open_w.
  apply touches_seq; [by apply touches_open_for_writing|].
  intros _. apply touches_ret.
Qed.

Lemma yields_open_w env path : yields (open_w env path) (fun f => f = path).
Proof.
  intros w a w' H. unfold open_w in H.
  apply bind_inv in H as (? & ? & _ & H). by injection H.
Qed.

Lemma touches_record_audio env filename duration fs channels :
  touches [filename] (record_audio env filename duration fs channels).
Proof.
  assert (Hin : filename ∈ [filename]) by (by left).
  unfold record_audio.
  apply touches_seq; [apply touches_print|]. intros _.
  apply touches_seq.
  { unfold sd_rec. case_all; [apply touches_raise..|].
    apply touches_seq; [apply touches_emit|]. intros _. apply touches_ret. }
  intros audio. apply touches_seq; [apply touches_elapse|]. intros _.
  apply (touches_bind _ _ _ (fun wf => ww_path wf = filename)).
  { unfold wave_open. apply touches_seq; [by apply touches_open_for_writing|].
    intros _. apply touches_ret. }
  { intros w wf w' H. unfold wave_open in H.
    apply bind_inv in H as (? & ? & _ & H). by injection H as <- _. }
  intros wf Hwf.
  apply (touches_bind _ _ _ (fun wf => ww_path wf = filename)).
  { unfold setnchannels. case_all; [apply touches_raise|apply touches_ret]. }
  { intros w wf1 w' H. unfold setnchannels in H.
    destruct (channels <? 1); [done|]. by injection H as <- _. }
  intros wf1 Hwf1.
  apply (touches_bind _ _ _ (fun wf => ww_path wf = filename)).
  { unfold setsampwidth. case_all; [apply touches_raise|apply touches_ret]. }
  { intros w wf2 w' H. unfold setsampwidth in H. cbn in H.
    by injection H as <- _. }
  intros wf2 Hwf2.
  apply (touches_bind _ _ _ (fun wf => ww_path wf = filename)).
  { unfold setframerate. case_all; [apply touches_raise|apply touches_ret]. }
  { intros w wf3 w' H. unfold setframerate in H.
    destruct (fs <=? 0); [done|]. by injection H as <- _. }
  intros wf3 Hwf3.
  apply touches_seq; [|intros _; apply touches_print].
  unfold writeframes. case_all; try apply touches_raise.
  apply touches_insert. by rewrite Hwf3.
Qed.

Lemma touches_for_range S (n : nat) (body : M unit) :
  touches S body -> touches S (for_range n body).
Proof.
  intros Hbody. induction n as [|n IH]; cbn [for_range].
  - apply touches_ret.
  - by apply touches_seq.
Qed.

Lemma touches_capture_frame env out :
  touches [vw_path out] (capture_frame env out).
Proof.
  unfold capture_frame.
  apply touches_seq; [apply touches_pyautogui_screenshot|]. intros img.
  unfold VideoWriter_write. destruct (vw_opened out); [|apply touches_ret].
  apply touches_alter. by left.
Qed.

Lemma touches_record_screen env filename duration fps :
  touches [filename] (record_screen env filename duration fps).
Proof.
  assert (Hin : filename ∈ [filename]) by (by left).
  rewrite record_screen_unfold.
  apply (touches_bind _ _ _ (fun out => vw_path out = filename)).
  { unfold VideoWriter_open. case_all; [|apply touches_ret].
    apply touches_seq; [apply touches_emit|]. intros _.
    apply touches_seq; [by apply touches_insert|]. intros _.
    apply touches_ret. }
  { intros w out w' H.
    destruct (VideoWriter_open_run env filename
                (VideoWriter_fourcc "X" "V" "I" "D") fps (screen_size env) w)
      as (out' & w1 & Hopen & Hpath & _).
    rewrite Hopen in H. by injection H as <- _. }
  intros out Hout.
  apply touches_seq; [apply touches_print|]. intros _.
  apply touches_seq.
  { apply touches_for_range. rewrite <- Hout. apply touches_capture_frame. }
  intros _. apply touches_seq; [apply touches_ret|]. intros _.
  apply touches_print.
Qed.

Lemma touches_Thread_start {A} S (target : M A) :
  touches S target -> touches S (Thread_start target).
Proof.
  intros Ht w p Hp. specialize (Ht w p Hp). unfold Thread_start.
  destruct (target w) as [[a|e|] w1]; world_simpl; done.
Qed.

Lemma touches_record_audio_and_screen env audio_file video_file duration :
  touches [audio_file; video_file]
          (record_audio_and_screen env audio_file video_file duration).
Proof.
  unfold record_audio_and_screen, record_audio_and_screen_with.
  apply touches_seq.
  { apply touches_Thread_start.
    eapply touches_mono; [|apply touches_record_audio]. sub_list. }
  intros audio_thread. apply touches_seq.
  { apply touches_Thread_start.
    eapply touches_mono; [|apply touches_record_screen]. sub_list. }
  intros video_thread.
  apply touches_seq; [apply touches_Thread_join|]. intros _.
  apply touches_seq; [apply touches_Thread_join|]. intros _.
  apply touches_ret.
Qed.

Lemma touches_transcribe S env audio_path model_name :
  touches S (transcribe env audio_path model_name).
Proof.
  unfold transcribe, whisper_load_model, model_transcribe.
  apply touches_seq.
  { apply touches_seq; [apply touches_emit|]. intros _. apply touches_lift. }
  intros _. apply touches_seq; [|intros; apply touches_ret].
  apply touches_seq; [apply touches_get|]. intros w0.
  destruct (files w0 !! audio_path); [|apply touches_raise].
  apply touches_seq; [apply touches_emit|]. intros _. apply touches_lift.
Qed.

Lemma touches_summarize_text S env text max_tokens model :
  touches S (summarize_text env text max_tokens model).
Proof.
  unfold summarize_text.
  apply touches_seq; [unfold os_getenv; apply touches_ret|]. intros key.
  destruct (py_not key); [apply touches_raise|].
  apply touches_seq; [by apply touches_modify|]. intros _.
  apply touches_seq; [|intros; apply touches_lift].
  unfold ChatCompletion_create.
  apply touches_seq; [apply touches_get|]. intros w0.
  apply touches_seq; [apply touches_emit|]. intros _. apply touches_lift.
Qed.

Lemma touches_track_loop S env fuel : forall end_time interval records,
  touches S (track_loop env fuel end_time interval records).
Proof.
  induction fuel as [|fuel IH]; intros end_time interval records;
    cbn [track_loop]; [same_files|].
  apply touches_seq; [apply touches_time_time|]. intros t.
  destruct (t <? end_time); [|apply touches_ret].
  apply touches_seq; [apply touches_getActiveWindow|]. intros win.
  apply touches_seq; [apply touches_time_time|]. intros ts.
  apply touches_seq; [apply touches_time_sleep|]. intros _. apply IH.
Qed.

Lemma touches_track_activity S env fuel duration interval :
  touches S (track_activity env fuel duration interval).
Proof.
  unfold track_activity.
  apply touches_seq; [apply touches_time_time|]. intros t.
  apply touches_track_loop.
Qed.

Lemma touches_run_session env fuel duration prefix :
  touches (session_files prefix) (run_session env fuel duration prefix).
Proof.
  unfold run_session, session_files.
  apply touches_seq.
  { eapply touches_mono; [|apply touches_record_audio_and_screen]. sub_list. }
  intros _. apply touches_seq; [apply touches_transcribe|]. intros transcript.
  eapply touches_bind;
    [apply touches_open_w; in_list|apply yields_open_w|].
  intros tf ->. apply touches_seq; [apply touches_file_write; in_list|].
  intros _. apply touches_seq; [apply touches_summarize_text|]. intros summary.
  eapply touches_bind;
    [apply touches_open_w; in_list|apply yields_open_w|].
  intros sf ->. apply touches_seq; [apply touches_file_write; in_list|].
  intros _. apply touches_seq; [apply touches_track_activity|]. intros activity.
  eapply touches_bind;
    [apply touches_open_w; in_list|apply yields_open_w|].
  intros af ->. apply touches_seq; [apply touches_json_dump; in_list|].
  intros _. apply touches_seq; [apply touches_print|]. intros _.
  apply touches_ret.
Qed.

(** * recorder.py: the two tasks together *)

(** The world after the capture stage when both tasks succeed. *)
Lemma capture_effect env audio_file video_file duration w :
  capture_ok env duration audio_file video_file ->
  audio_file <> video_file ->
  (forall i, (i < Z.to_nat (duration * default_fps))%nat ->
             exists img, screenshot env (n_shot w + i) = Returns img) ->
  exists w',
    record_audio_and_screen env audio_file video_file duration w
      = (Ok (audio_file, video_file), w') /\
    files w' !! audio_file =
      Some (CWav {| wav_nchannels := default_channels; wav_sampwidth := 2;
                    wav_framerate := default_fs;
                    wav_nframes := duration * default_fs;
                    wav_data := tobytes (recorded env (duration * default_fs)
                                                  default_channels) |}) /\
    files w' !! video_file =
      Some (CAvi {| avi_fourcc := VideoWriter_fourcc "X" "V" "I" "D";
                    avi_fps := default_fps; avi_size := screen_size env;
                    avi_frames := frames_of env (n_shot w)
                                    (Z.to_nat (duration * default_fps)) |}) /\
    now w' = Z.max (Z.max (now w) (now w + rec_time env))
                   (now w + shots_time env (n_shot w)
                                       (Z.to_nat (duration * default_fps))).
Proof.
  intros (Hd & Hmic & Hwa & Hwv & Hcodec) Hne Hshots.
  destruct (record_audio_effect env audio_file duration default_fs
              default_channels w)
    as (wa & Ha & Hfa & _ & Hnowa & Hna); try done;
    [unfold default_fs; lia| ].
  destruct (record_screen_effect env video_file duration default_fps
              (set_now (now w) wa))
    as (wv & Hv & _ & Hnowv & _ & Hfv).
  { world_simpl. by rewrite Hna. }
  world_simpl. rewrite Hna in *. rewrite Hwv, Hcodec in Hfv. cbn [andb] in Hfv.
  unfold record_audio_and_screen, record_audio_and_screen_with.
  erewrite bind_ok; last first.
  { unfold Thread_start. rewrite Ha. reflexivity. }
  erewrite bind_ok; last first.
  { unfold Thread_start. rewrite Hv. reflexivity. }
  erewrite bind_ok by reflexivity. erewrite bind_ok by reflexivity.
  eexists. split; [reflexivity|]. world_simpl. cbn [t_finish].
  rewrite Hfv, Hfa, Hnowv, Hnowa.
  split; [by rewrite lookup_insert_ne, lookup_insert_eq|].
  split; [by rewrite lookup_insert_eq|]. done.
Qed.

(** X9.  Through [record_audio_and_screen] the two tasks run with the
    defaults of their signatures: when both can create their files and the
    screenshots succeed, the audio file is a 16-bit stereo WAV at 44100 Hz
    of [duration * 44100] frames, and the video file runs at 20 frames per
    second and holds [duration * 20] frames. *)
Theorem record_audio_and_screen_default_settings env audio_file video_file duration w :
  capture_ok env duration audio_file video_file ->
  audio_file <> video_file ->
  (forall i, (i < Z.to_nat (duration * 20))%nat ->
             exists img, screenshot env (n_shot w + i) = Returns img) ->
  exists w' wav avi,
    record_audio_and_screen env audio_file video_file duration w
      = (Ok (audio_file, video_file), w') /\
    files w' !! audio_file = Some (CWav wav) /\
    wav_nchannels wav = 2 /\ wav_sampwidth wav = 2 /\
    wav_framerate wav = 44100 /\ wav_nframes wav = duration * 44100 /\
    files w' !! video_file = Some (CAvi avi) /\
    avi_fps avi = 20 /\
    Z.of_nat (length (avi_frames avi)) = duration * 20.
Proof.
  intros Hcap Hne Hshots.
  destruct (capture_effect env audio_file video_file duration w Hcap Hne Hshots)
    as (w' & Hrun & Ha & Hv & _).
  exists w'. eexists _, _. split; [exact Hrun|]. split; [exact Ha|].
  do 4 (split; [reflexivity|]). split; [exact Hv|]. split; [reflexivity|].
  cbn [avi_frames]. unfold frames_of. rewrite length_map, length_seq.
  destruct Hcap as [Hd _]. unfold default_fps. lia.
Qed.

Lemma record_audio_and_screen_default_settings_witness :
  exists w' wav avi,
    record_audio_and_screen studio "t_audio.wav" "t_screen.avi" 1 world0
      = (Ok ("t_audio.wav", "t_screen.avi"), w') /\
    files w' !! "t_audio.wav" = Some (CWav wav) /\
    wav_nchannels wav = 2 /\ wav_sampwidth wav = 2 /\
    wav_framerate wav = 44100 /\ wav_nframes wav = 1 * 44100 /\
    files w' !! "t_screen.avi" = Some (CAvi avi) /\
    avi_fps avi = 20 /\
    Z.of_nat (length (avi_frames avi)) = 1 * 20.
Proof.
  apply (record_audio_and_screen_default_settings studio "t_audio.wav"
           "t_screen.avi" 1 world0).
  - unfold capture_ok. repeat split; try reflexivity. lia.
  - discriminate.
  - intros i _. by eexists.
Defined.

(** X10.  The capture lasts as long as the slower of its two tasks, not
    as long as both: the time that passes is the greater of the recording
    time and of the total time of the screenshots. *)
Theorem record_audio_and_screen_latency env audio_file video_file duration w :
  capture_ok env duration audio_file video_file ->
  audio_file <> video_file ->
  (forall i, (i < Z.to_nat (duration * 20))%nat ->
             exists img, screenshot env (n_shot w + i) = Returns img) ->
  exists w',
    record_audio_and_screen env audio_file video_file duration w
      = (Ok (audio_file, video_file), w') /\
    now w' - now w =
      Z.max 0 (Z.max (rec_time env)
                     (foldr Z.add 0
                        (map (shot_time env)
                             (seq (n_shot w) (Z.to_nat (duration * 20)))))).
Proof.
  intros Hcap Hne Hshots.
  destruct (capture_effect env audio_file video_file duration w Hcap Hne Hshots)
    as (w' & Hrun & _ & _ & Hnow).
  exists w'. split; [exact Hrun|]. rewrite Hnow. unfold shots_time, default_fps.
  lia.
Qed.

Lemma record_audio_and_screen_latency_witness :
  exists w',
    record_audio_and_screen studio "t_audio.wav" "t_screen.avi" 1 world0
      = (Ok ("t_audio.wav", "t_screen.avi"), w') /\
    now w' - now world0 =
      Z.max 0 (Z.max (rec_time studio)
                     (foldr Z.add 0
                        (map (shot_time studio)
                             (seq (n_shot world0) (Z.to_nat (1 * 20)))))).
Proof.
  apply (record_audio_and_screen_latency studio "t_audio.wav" "t_screen.avi"
           1 world0).
  - unfold capture_ok. repeat split; try reflexivity. lia.
  - discriminate.
  - intros i _. by eexists.
Defined.

(** X11.  [record_audio_and_screen] always returns, and returns its two
    arguments: no failure of a task reaches the caller.  It changes no
    file other than these two. *)
Theorem record_audio_and_screen_never_raises env audio_file video_file duration w :
  exists w',
    record_audio_and_screen env audio_file video_file duration w
      = (Ok (audio_file, video_file), w') /\
    forall p, p <> audio_file -> p <> video_file ->
              files w' !! p = files w !! p.
Proof.
  destruct (record_audio_and_screen_returns env audio_file video_file duration w)
    as [w' Hrun].
  exists w'. split; [exact Hrun|]. intros p Hpa Hpv.
  pose proof (touches_record_audio_and_screen env audio_file video_file
                duration w p) as H.
  rewrite Hrun in H. apply H.
  intros Hin. apply elem_of_cons in Hin as [->|Hin]; [done|].
  apply list_elem_of_singleton in Hin. done.
Qed.

(** The capture stage lasts at least as long as the recording of the
    microphone. *)
Lemma capture_waits_for_audio env audio_file video_file duration w w1 :
  0 <= duration ->
  mic_ok env default_fs default_channels = true ->
  writable env audio_file = true ->
  record_audio_and_screen env audio_file video_file duration w
    = (Ok (audio_file, video_file), w1) ->
  now w <= now w1 /\ now w + rec_time env <= now w1.
Proof.
  intros Hd Hmic Hwa H1.
  destruct (record_audio_and_screen_waits env audio_file video_file duration w)
    as (w1' & H1' & Hnow).
  rewrite H1 in H1'. injection H1' as <-.
  destruct (record_audio_effect env audio_file duration default_fs
              default_channels w)
    as (wa & Ha & _ & _ & Hnowa & _); try done; [unfold default_fs; lia|].
  rewrite Ha in Hnow. cbn [snd] in Hnow. lia.
Qed.

Lemma capture_without_microphone env audio_file video_file duration w w1 :
  mic_ok env default_fs default_channels = false ->
  audio_file <> video_file ->
  record_audio_and_screen env audio_file video_file duration w
    = (Ok (audio_file, video_file), w1) ->
  files w1 !! audio_file = files w !! audio_file.
Proof.
  intros Hmic Hne H.
  unfold record_audio_and_screen, record_audio_and_screen_with in H.
  destruct (record_audio_refused env audio_file duration default_fs
              default_channels w Hmic) as (e & wa & Ha & Hfa & _).
  erewrite bind_ok in H; last first.
  { unfold Thread_start. rewrite Ha. reflexivity. }
  apply bind_inv in H as (tv & wv & Hv & H).
  pose proof (touches_Thread_start [video_file] _
                (touches_record_screen env video_file duration default_fps)
                (set_now (now w) wa) audio_file) as Hkeep.
  rewrite Hv in Hkeep. cbn [snd] in Hkeep. world_simpl.
  erewrite bind_ok in H by reflexivity. erewrite bind_ok in H by reflexivity.
  apply mret_inv in H as [_ <-]. world_simpl.
  rewrite Hkeep, Hfa; [done|].
  intros Hin. apply list_elem_of_singleton in Hin. done.
Qed.

(** * transcriber.py: the value and the failures *)

Lemma transcribe_inv env audio_path model_name w v w' :
  transcribe env audio_path model_name w = (Ok v, w') ->
  exists c d,
    files w !! audio_path = Some c /\
    whisper_run env c = Returns d /\
    v = dict_get d "text" (PStr "") /\
    w' = set_trace (trace w ++ [EvLoadModel model_name; EvRead audio_path]) w.
Proof.
  unfold transcribe, whisper_load_model, model_transcribe, emit,
    modify, lift, get, raise, mbind, M_bind, mret, M_ret.
  world_simpl. destruct (whisper_load env model_name) as [[]|e]; [|done].
  world_simpl. destruct (files w !! audio_path) as [c|] eqn:Hc; [|done].
  world_simpl. destruct (whisper_run env c) as [d|e] eqn:Hd; [|done].
  intros H. injection H as <- <-. exists c, d. world_simpl.
  by rewrite <- app_assoc.
Qed.

(** X12.  Whenever [transcribe] returns, it has loaded the model and then
    read the file at [audio_path], which exists; the value is the ["text"]
    entry of what Whisper returned for the content of that file, as it is
    (the empty string when there is none), and no file has changed. *)
Theorem transcribe_returns_text_field env audio_path model_name w v w' :
  transcribe env audio_path model_name w = (Ok v, w') ->
  exists c d,
    files w !! audio_path = Some c /\
    whisper_run env c = Returns d /\
    v = default (PStr "") (d !! "text") /\
    files w' = files w /\
    trace w' = trace w ++ [EvLoadModel model_name; EvRead audio_path].
Proof.
  unfold transcribe, whisper_load_model, model_transcribe, dict_get, emit,
    modify, lift, get, raise, mbind, M_bind, mret, M_ret.
  world_simpl. destruct (whisper_load env model_name) as [[]|e]; [|done].
  world_simpl. destruct (files w !! audio_path) as [c|] eqn:Hc; [|done].
  world_simpl. destruct (whisper_run env c) as [d|e] eqn:Hd; [|done].
  intros H. injection H as <- <-. exists c, d. world_simpl.
  by rewrite <- app_assoc.
Qed.

Lemma transcribe_returns_text_field_witness :
  exists c d,
    files world_with_audio !! "t_audio.wav" = Some c /\
    whisper_run studio c = Returns d /\
    PStr " good morning" = default (PStr "") (d !! "text") /\
    files (snd (transcribe studio "t_audio.wav" "base" world_with_audio))
      = files world_with_audio /\
    trace (snd (transcribe studio "t_audio.wav" "base" world_with_audio))
      = trace world_with_audio ++ [EvLoadModel "base"; EvRead "t_audio.wav"].
Proof.
  apply (transcribe_returns_text_field studio "t_audio.wav" "base"
           world_with_audio (PStr " good morning")).
  reflexivity.
Defined.

(** X13.  When there is no file at [audio_path], [transcribe] raises, and
    only after the model has been loaded; nothing is read, and nothing
    but the trace has changed. *)
Theorem transcribe_missing_file env audio_path model_name w :
  files w !! audio_path = None ->
  exists e,
    transcribe env audio_path model_name w
    = (Raise e, set_trace (trace w ++ [EvLoadModel model_name]) w).
Proof.
  intros Hf.
  unfold transcribe, whisper_load_model, model_transcribe, dict_get, emit,
    modify, lift, get, raise, mbind, M_bind, mret, M_ret.
  world_simpl. destruct (whisper_load env model_name) as [[]|e]; [|by eexists].
  world_simpl. rewrite Hf. by eexists.
Qed.

Lemma transcribe_missing_file_witness :
  exists e,
    transcribe studio "t_audio.wav" "base" world0
    = (Raise e, set_trace (trace world0 ++ [EvLoadModel "base"]) world0).
Proof.
  apply (transcribe_missing_file studio "t_audio.wav" "base" world0).
  reflexivity.
Defined.

(** * summarizer.py: the request and the reply *)

Lemma summarize_text_run env text max_tokens model w key :
  environ env !! "OPENAI_API_KEY" = Some key -> key <> "" ->
  summarize_text env text max_tokens model w =
  lift (chat_create env (summary_request key text max_tokens model)
          ≫= reply_content)
    (set_trace (trace w ++ [EvApi (summary_request key text max_tokens model)])
       (set_openai_api_key (Some key) w)).
Proof.
  intros Hkey Hne.
  unfold summarize_text, os_getenv, ChatCompletion_create, emit, modify, lift,
    get, mbind at 1 2 3 4 5 6, M_bind, mret, M_ret.
  rewrite Hkey. cbn [py_not]. rewrite bool_decide_eq_false_2 by done.
  world_simpl. fold (summary_request key text max_tokens model).
  unfold mbind, result_bind.
  by destruct (chat_create env (summary_request key text max_tokens model)).
Qed.

Lemma summarize_text_key env text max_tokens model w s w' :
  summarize_text env text max_tokens model w = (Ok s, w') ->
  exists key, environ env !! "OPENAI_API_KEY" = Some key /\ key <> "".
Proof.
  unfold summarize_text, os_getenv. unfold mbind at 1, M_bind, mret, M_ret.
  destruct (environ env !! "OPENAI_API_KEY") as [key|]; cbn [py_not]; [|done].
  destruct (decide (key = "")) as [->|Hne]; [done|]. by exists key.
Qed.

Lemma summarize_text_inv env text max_tokens model w s w' :
  summarize_text env text max_tokens model w = (Ok s, w') ->
  exists key,
    environ env !! "OPENAI_API_KEY" = Some key /\ key <> "" /\
    chat_create env (summary_request key text max_tokens model)
      ≫= reply_content = Returns s /\
    w' = set_trace
           (trace w ++ [EvApi (summary_request key text max_tokens model)])
           (set_openai_api_key (Some key) w).
Proof.
  intros H. destruct (summarize_text_key _ _ _ _ _ _ _ H) as (key & Hkey & Hne).
  rewrite (summarize_text_run _ _ _ _ _ _ Hkey Hne) in H.
  unfold lift in H. exists key.
  destruct (_ ≫= _) as [s'|]; [|done]. by injection H as <- <-.
Qed.

Lemma summarize_text_no_key env text max_tokens model w :
  py_not (environ env !! "OPENAI_API_KEY") = true ->
  exists msg,
    summarize_text env text max_tokens model w = (Raise (RuntimeError msg), w).
Proof.
  intros H. eexists. unfold summarize_text, os_getenv.
  unfold mbind at 1, M_bind, mret, M_ret. by rewrite H.
Qed.

(** X14.  With a non-empty key in the environment, [summarize_text] makes
    exactly one chat request, whatever comes of it: under that key, which
    it stores in the module, for the given model and token limit, at
    temperature 3/10, with two messages, a system prompt and the text,
    unchanged, as the message of the user.  Nothing else changes, and an
    exception raised by the API is the outcome of the call. *)
Theorem summarize_text_single_request env text max_tokens model w key :
  environ env !! "OPENAI_API_KEY" = Some key -> key <> "" ->
  exists rq,
    rq_key rq = Some key /\ rq_model rq = model /\
    rq_max_tokens rq = max_tokens /\
    rq_temperature rq = QArith_base.Qmake 3 10 /\
    (exists prompt, rq_messages rq = [("system", PStr prompt); ("user", text)]) /\
    snd (summarize_text env text max_tokens model w)
    = set_trace (trace w ++ [EvApi rq]) (set_openai_api_key (Some key) w) /\
    (forall e, chat_create env rq = Raises e ->
               fst (summarize_text env text max_tokens model w) = Raise e).
Proof.
  intros Hkey Hne. exists (summary_request key text max_tokens model).
  rewrite (summarize_text_run _ _ _ _ _ _ Hkey Hne).
  do 4 (split; [reflexivity|]). split; [by eexists|].
  unfold lift.
  split.
  - by destruct (_ ≫= _).
  - by intros e ->.
Qed.

Lemma summarize_text_single_request_witness :
  exists rq,
    rq_key rq = Some "sk-test" /\ rq_model rq = "gpt-3.5-turbo" /\
    rq_max_tokens rq = 150 /\
    rq_temperature rq = QArith_base.Qmake 3 10 /\
    (exists prompt,
        rq_messages rq = [("system", PStr prompt); ("user", PStr "minutes")]) /\
    snd (summarize_text studio (PStr "minutes") 150 "gpt-3.5-turbo" world0)
    = set_trace (trace world0 ++ [EvApi rq])
        (set_openai_api_key (Some "sk-test") world0) /\
    (forall e, chat_create studio rq = Raises e ->
               fst (summarize_text studio (PStr "minutes") 150 "gpt-3.5-turbo"
                      world0) = Raise e).
Proof.
  apply (summarize_text_single_request studio (PStr "minutes") 150
           "gpt-3.5-turbo" world0 "sk-test").
  - reflexivity.
  - discriminate.
Defined.











(** * tracker.py: the log of a run that returns *)

Lemma time_sleep_inv env secs w w' :
  time_sleep env secs w = (Ok tt, w') ->
  0 <= secs /\
  w' = set_now (now w + (secs + oversleep env (n_sleep w)))
         (set_n_sleep (S (n_sleep w)) w).
Proof.
  unfold time_sleep. destruct (secs <? 0) eqn:Hs; [done|].
  apply Z.ltb_ge in Hs. intros H. injection H as <-. done.
Qed.

Lemma getActiveWindow_inv env w win w' :
  getActiveWindow env w = (Ok win, w') ->
  active_window env (n_query w) = Returns win /\
  w' = set_trace (trace w ++ [EvQuery])
         (set_now (now w + query_time env (n_query w))
            (set_n_query (S (n_query w)) w)).
Proof.
  unfold getActiveWindow, get, modify, elapse, emit, lift, mbind, M_bind.
  world_simpl. destruct (active_window env (n_query w)); [|done].
  intros H. by injection H as <- <-.
Qed.

(** What an iteration that went through has done. *)
Lemma iteration_inv env interval fuel end_time records w recs w' :
  now w < end_time ->
  track_loop env (S fuel) end_time interval records w = (Ok recs, w') ->
  0 <= interval /\
  answers env (n_query w) /\
  track_loop env fuel end_time interval
    (records ++ [{| timestamp := now w + query_time env (n_query w);
                    title := expected_title env (n_query w) |}])
    (after_iteration env interval w) = (Ok recs, w').
Proof.
  intros Hlt H. cbn [track_loop] in H.
  erewrite bind_ok in H by reflexivity.
  apply Z.ltb_lt in Hlt. rewrite Hlt in H.
  apply bind_inv in H as (win & w1 & Hwin & H).
  apply getActiveWindow_inv in Hwin as [Hwin ->].
  erewrite bind_ok in H by reflexivity.
  apply bind_inv in H as ([] & w2 & Hsl & H).
  apply time_sleep_inv in Hsl as [Hi ->]. world_simpl.
  split; [done|]. split; [by exists win|].
  unfold expected_title, after_iteration. rewrite Hwin. exact H.
Qed.

Lemma track_loop_inv env interval fuel :
  forall end_time records w recs w',
  track_loop env fuel end_time interval records w = (Ok recs, w') ->
  exists new,
    recs = records ++ new /\
    n_query w' = (n_query w + length new)%nat /\
    n_sleep w' = (n_sleep w + length new)%nat /\
    trace w' = trace w ++ replicate (length new) EvQuery /\
    files w' = files w /\ stdout w' = stdout w /\
    end_time <= now w' /\
    (new <> [] -> 0 <= interval) /\
    (forall i s, new !! i = Some s ->
       answers env (n_query w + i) /\
       title s = expected_title env (n_query w + i) /\
       timestamp s - query_time env (n_query w + i) < end_time).
Proof.
  induction fuel as [|fuel IH]; intros end_time records w recs w' H; [done|].
  destruct (Z.lt_ge_cases (now w) end_time) as [Hlt | Hge].
  - apply iteration_inv in H as (Hi & Ha & H); [|done].
    apply IH in H as (new & -> & Hq & Hs & Ht & Hf & Ho & Hend & _ & Hsam).
    unfold after_iteration in *. world_simpl.
    eexists (_ :: new). split; [by rewrite <- app_assoc|].
    cbn [length replicate]. split; [lia|]. split; [lia|].
    split; [by rewrite Ht, <- app_assoc|]. split; [done|]. split; [done|].
    split; [done|]. split; [done|].
    intros [|i] s Hs'; cbn in Hs'.
    + injection Hs' as <-. cbn [title timestamp]. rewrite Nat.add_0_r.
      split; [done|]. split; [done|]. lia.
    + replace (n_query w + S i)%nat with (S (n_query w) + i)%nat by lia.
      by apply Hsam.
  - rewrite iteration_last in H by done. injection H as <- <-.
    exists []. rewrite app_nil_r. cbn [length replicate]. rewrite app_nil_r.
    repeat split; try done; try lia.
Qed.

Section Clock.
Context (env : Env) (interval : Z).
Hypothesis Hquery : forall k, 0 <= query_time env k.
Hypothesis Hsleep : forall k, 0 <= oversleep env k.

(** On a clock that does not run backwards, every sample is taken after
    the loop began and at least one interval before the loop ends. *)
Lemma track_loop_clock fuel :
  forall end_time records w recs w',
  track_loop env fuel end_time interval records w = (Ok recs, w') ->
  now w <= now w' /\
  forall s, s ∈ recs -> s ∈ records \/
    (now w <= timestamp s /\ timestamp s + interval <= now w').
Proof.
  induction fuel as [|fuel IH]; intros end_time records w recs w' H; [done|].
  destruct (Z.lt_ge_cases (now w) end_time) as [Hlt | Hge].
  - apply iteration_inv in H as (Hi & _ & H); [|done].
    apply IH in H as [Hnow Hsam].
    pose proof (Hquery (n_query w)) as Hq.
    pose proof (Hsleep (n_sleep w)) as Hs.
    unfold after_iteration in *. world_simpl.
    split; [lia|]. intros s Hin.
    destruct (Hsam s Hin) as [Hold | [H1 H2]].
    + apply elem_of_app in Hold as [Hold | Hnew]; [by left|].
      apply list_elem_of_singleton in Hnew as ->. cbn [timestamp].
      right. lia.
    + right. lia.
  - rewrite iteration_last in H by done. injection H as <- <-.
    split; [lia|]. by left.
Qed.

End Clock.

(** X16.  A run of [track_activity] that returns has made exactly one
    window query and one sleep for each sample of the log, has added
    nothing but these queries to the trace, has changed no file and has
    printed nothing. *)
Theorem track_activity_only_queries_and_sleeps env fuel duration interval w recs w' :
  track_activity env fuel duration interval w = (Ok recs, w') ->
  n_query w' = (n_query w + length recs)%nat /\
  n_sleep w' = (n_sleep w + length recs)%nat /\
  trace w' = trace w ++ replicate (length recs) EvQuery /\
  files w' = files w /\
  stdout w' = stdout w.
Proof.
  rewrite track_activity_unfold. intros H.
  apply track_loop_inv in H as (new & -> & Hq & Hs & Ht & Hf & Ho & _).
  cbn [app]. done.
Qed.

Lemma track_activity_only_queries_and_sleeps_witness :
  n_query (snd (track_activity studio 5 3 10 world0))
    = (n_query world0 + length [ {| timestamp := 0; title := "Editor" |};
                                 {| timestamp := 10; title := "Unknown" |};
                                 {| timestamp := 20; title := "Editor" |} ])%nat /\
  n_sleep (snd (track_activity studio 5 3 10 world0))
    = (n_sleep world0 + length [ {| timestamp := 0; title := "Editor" |};
                                 {| timestamp := 10; title := "Unknown" |};
                                 {| timestamp := 20; title := "Editor" |} ])%nat /\
  trace (snd (track_activity studio 5 3 10 world0))
    = trace world0 ++
      replicate (length [ {| timestamp := 0; title := "Editor" |};
                          {| timestamp := 10; title := "Unknown" |};
                          {| timestamp := 20; title := "Editor" |} ]) EvQuery /\
  files (snd (track_activity studio 5 3 10 world0)) = files world0 /\
  stdout (snd (track_activity studio 5 3 10 world0)) = stdout world0.
Proof.
  apply (track_activity_only_queries_and_sleeps studio 5 3 10 world0).
  apply pair_with_snd. vm_compute. reflexivity.
Defined.

(** X17.  On a clock that does not run backwards, a log that
    [track_activity] returns is stamped within the tracked span: no sample
    is older than the call, the query of every sample began before the end
    of the span, and the call returns no earlier than the end of the span
    and at least one interval after each sample, the last one included. *)
Theorem track_activity_timestamps env fuel duration interval w recs w' :
  (forall k, 0 <= query_time env k) ->
  (forall k, 0 <= oversleep env k) ->
  track_activity env fuel duration interval w = (Ok recs, w') ->
  now w + duration * hz env <= now w' /\
  forall i s, recs !! i = Some s ->
    now w <= timestamp s /\
    timestamp s - query_time env (n_query w + i) < now w + duration * hz env /\
    timestamp s + interval <= now w'.
Proof.
  intros Hq Hs. rewrite track_activity_unfold. intros H.
  pose proof (track_loop_clock env interval Hq Hs _ _ _ _ _ _ H) as [_ Hclock].
  apply track_loop_inv in H as (new & -> & _ & _ & _ & _ & _ & Hend & _ & Hsam).
  cbn [app] in *. split; [done|]. intros i s Hi.
  destruct (Hsam i s Hi) as (_ & _ & Hlt).
  destruct (Hclock s) as [Hnil | [H1 H2]].
  - by eapply list_elem_of_lookup_2.
  - by apply elem_of_nil in Hnil.
  - done.
Qed.

Lemma track_activity_timestamps_witness :
  now world0 + 3 * hz studio <= now (snd (track_activity studio 5 3 10 world0)) /\
  forall i s,
    [ {| timestamp := 0; title := "Editor" |};
      {| timestamp := 10; title := "Unknown" |};
      {| timestamp := 20; title := "Editor" |} ] !! i = Some s ->
    now world0 <= timestamp s /\
    timestamp s - query_time studio (n_query world0 + i)
      < now world0 + 3 * hz studio /\
    timestamp s + 10 <= now (snd (track_activity studio 5 3 10 world0)).
Proof.
  apply (track_activity_timestamps studio 5 3 10 world0).
  - intros k. simpl. lia.
  - intros k. simpl. lia.
  - apply pair_with_snd. vm_compute. reflexivity.
Defined.

(** X18.  For a duration that is not positive, [track_activity] returns
    the empty log at once, without a query or a sleep: the world is left
    as it was. *)
Theorem track_activity_nothing_to_track env fuel duration interval w :
  0 < hz env -> duration <= 0 ->
  track_activity env (S fuel) duration interval w = (Ok [], w).
Proof.
  intros Hhz Hd. rewrite track_activity_unfold.
  cbn [track_loop]. erewrite bind_ok by reflexivity.
  assert (H : (now w <? now w + duration * hz env) = false)
    by (apply Z.ltb_ge; nia).
  by rewrite H.
Qed.

Lemma track_activity_nothing_to_track_witness :
  track_activity studio 1 0 10 world0 = (Ok [], world0).
Proof.
  apply (track_activity_nothing_to_track studio 0 0 10 world0).
  - simpl. lia.
  - lia.
Defined.

(** X19.  With a negative interval and a positive duration,
    [track_activity] raises the [ValueError] of its first [time.sleep],
    after one window query: the sample it had taken is lost. *)
Theorem track_activity_negative_interval env fuel duration interval w :
  0 < hz env -> 0 < duration -> interval < 0 ->
  answers env (n_query w) ->
  track_activity env (S fuel) duration interval w
  = (Raise ValueError,
     set_trace (trace w ++ [EvQuery])
       (set_now (now w + query_time env (n_query w))
          (set_n_query (S (n_query w)) w))).
Proof.
  intros Hhz Hd Hi [r Hr]. rewrite track_activity_unfold.
  cbn [track_loop]. erewrite bind_ok by reflexivity.
  assert (H : (now w <? now w + duration * hz env) = true)
    by (apply Z.ltb_lt; nia).
  rewrite H.
  erewrite bind_ok; last first.
  { unfold getActiveWindow, get, modify, elapse, emit, lift, mbind, M_bind.
    world_simpl. rewrite Hr. reflexivity. }
  erewrite bind_ok by reflexivity.
  erewrite bind_raise; [reflexivity|].
  unfold time_sleep. apply Z.ltb_lt in Hi. by rewrite Hi.
Qed.

Lemma track_activity_negative_interval_witness :
  track_activity studio 1 3 (-1) world0
  = (Raise ValueError,
     set_trace (trace world0 ++ [EvQuery])
       (set_now (now world0 + query_time studio (n_query world0))
          (set_n_query (S (n_query world0)) world0))).
Proof.
  apply (track_activity_negative_interval studio 0 3 (-1) world0).
  - simpl. lia.
  - lia.
  - lia.
  - by exists (Some editor).
Defined.

(** * main.py: the files of a session *)







Lemma open_w_inv env path w f w' :
  open_w env path w = (Ok f, w') ->
  f = path /\ writable env path = true /\
  w' = set_files (<[path := CText ""]> (files w))
         (set_trace (trace w ++ [EvOpenW path]) w).
Proof.
  unfold open_w, open_for_writing.
  destruct (writable env path); [|done]. intros H. by injection H as <- <-.
Qed.

Lemma file_write_inv f v w w' :
  file_write f v w = (Ok tt, w') ->
  exists s, v = PStr s /\
            w' = set_files (alter (append_text s) f (files w)) w.
Proof.
  destruct v as [| |s| |]; try done. intros H. injection H as <-. by exists s.
Qed.

Ltac distinct_names :=
  let E := fresh in intros E; apply append_inj in E; discriminate E.

(** The stages of a session that returned, one by one. *)
Lemma run_session_inv env fuel duration prefix w paths w' :
  run_session env fuel duration prefix w = (Ok paths, w') ->
  exists w1 c d transcript key summary activity,
    record_audio_and_screen env (prefix +:+ "_audio.wav")
      (prefix +:+ "_screen.avi") duration w
      = (Ok (prefix +:+ "_audio.wav", prefix +:+ "_screen.avi"), w1) /\
    files w1 !! (prefix +:+ "_audio.wav") = Some c /\
    whisper_run env c = Returns d /\
    dict_get d "text" (PStr "") = PStr transcript /\
    environ env !! "OPENAI_API_KEY" = Some key /\ key <> "" /\
    chat_create env (summary_request key (PStr transcript) 150 "gpt-3.5-turbo")
      ≫= reply_content = Returns summary /\
    files w' = <[prefix +:+ "_activity.json" := CJson activity]>
                 (<[prefix +:+ "_summary.txt" := CText summary]>
                    (<[prefix +:+ "_transcript.txt" := CText transcript]>
                       (files w1))) /\
    trace w' = trace w1 ++
      [EvLoadModel "base"; EvRead (prefix +:+ "_audio.wav");
       EvOpenW (prefix +:+ "_transcript.txt");
       EvApi (summary_request key (PStr transcript) 150 "gpt-3.5-turbo");
       EvOpenW (prefix +:+ "_summary.txt")]
      ++ replicate (length activity) EvQuery
      ++ [EvOpenW (prefix +:+ "_activity.json")] /\
    n_query w' = (n_query w1 + length activity)%nat /\
    now w1 + duration * hz env <= now w'.
Proof.
  unfold run_session. intros H.
  apply bind_inv in H as ([a v] & w1 & H1 & H).
  destruct (record_audio_and_screen_returns env (prefix +:+ "_audio.wav")
              (prefix +:+ "_screen.avi") duration w) as [w1' H1'].
  rewrite H1 in H1'. injection H1' as -> -> <-.
  apply bind_inv in H as (tr & w2 & H2 & H).
  apply transcribe_inv in H2 as (c & d & Hc & Hd & -> & ->).
  apply bind_inv in H as (tf & w3 & H3 & H).
  apply open_w_inv in H3 as (-> & _ & ->).
  apply bind_inv in H as ([] & w4 & H4 & H).
  apply file_write_inv in H4 as (transcript & Ht & ->).
  rewrite Ht in H.
  apply bind_inv in H as (summary & w5 & H5 & H).
  apply summarize_text_inv in H5 as (key & Hkey & Hne & Hsum & ->).
  apply bind_inv in H as (sf & w6 & H6 & H).
  apply open_w_inv in H6 as (-> & _ & ->).
  apply bind_inv in H as ([] & w7 & H7 & H).
  apply file_write_inv in H7 as (summary' & [= <-] & ->).
  apply bind_inv in H as (activity & w8 & H8 & H).
  rewrite track_activity_unfold in H8.
  apply track_loop_inv in H8
    as (new & -> & Hq & _ & Htr & Hf & _ & Hend & _ & _).
  apply bind_inv in H as (af & w9 & H9 & H).
  apply open_w_inv in H9 as (-> & _ & ->).
  apply bind_inv in H as ([] & w10 & H10 & H).
  injection H10 as <-.
  apply bind_inv in H as ([] & w11 & H11 & H).
  injection H11 as <-.
  apply mret_inv in H as [_ <-].
  world_simpl. cbn [app] in *.
  exists w1, c, d, transcript, key, summary, new.
  do 7 (split; [done|]).
  split.
  { rewrite Hf, insert_insert_eq, !alter_insert_eq. reflexivity. }
  split.
  { rewrite Htr, <- !app_assoc. reflexivity. }
  done.
Qed.

(** X20.  Whatever its outcome, [run_session] creates, changes or removes
    no file other than its five artifacts. *)
Theorem run_session_changes_only_artifacts env fuel duration prefix w p :
  p ∉ session_files prefix ->
  files (snd (run_session env fuel duration prefix w)) !! p = files w !! p.
Proof. apply touches_run_session. Qed.

Lemma run_session_changes_only_artifacts_witness :
  files (snd (run_session studio 3 1 "t" world_with_audio)) !! "notes.txt"
  = files world_with_audio !! "notes.txt".
Proof.
  apply (run_session_changes_only_artifacts studio 3 1 "t" world_with_audio
           "notes.txt").
  apply (bool_decide_unpack _). vm_compute. reflexivity.
Defined.





(** X23.  A session that returns after a recording that could be made has
    lasted at least the recording time and, on top of it, the whole
    tracked span: the windows are tracked only after the capture is
    over. *)
Theorem run_session_lasts env fuel duration prefix w paths w' :
  0 <= duration ->
  mic_ok env default_fs default_channels = true ->
  writable env (prefix +:+ "_audio.wav") = true ->
  run_session env fuel duration prefix w = (Ok paths, w') ->
  now w + Z.max 0 (rec_time env) + duration * hz env <= now w'.
Proof.
  intros Hd Hmic Hwa H.
  apply run_session_inv in H
    as (w1 & c & d & transcript & key & summary & activity
        & H1 & _ & _ & _ & _ & _ & _ & _ & _ & _ & Hnow).
  destruct (capture_waits_for_audio _ _ _ _ _ _ Hd Hmic Hwa H1). lia.
Qed.

Lemma run_session_lasts_witness :
  now world0 + Z.max 0 (rec_time studio) + 1 * hz studio
  <= now (snd (run_session studio 3 1 "t" world0)).
Proof.
  apply (run_session_lasts studio 3 1 "t" world0 (returned_paths "t")).
  - lia.
  - reflexivity.
  - reflexivity.
  - apply pair_with_snd. vm_compute. reflexivity.
Defined.

(** X24.  A missing or empty API key is found only after the capture and
    the transcription: when these succeed, the session raises the
    [RuntimeError] having recorded for the whole time, transcribed the
    recording and written the transcript, with no chat request and no
    window query made. *)
Theorem run_session_missing_key_fails_late env fuel duration prefix w :
  0 <= duration ->
  mic_ok env default_fs default_channels = true ->
  writable env (prefix +:+ "_audio.wav") = true ->
  writable env (prefix +:+ "_transcript.txt") = true ->
  whisper_load env "base" = Returns tt ->
  (forall c, exists d s,
      whisper_run env c = Returns d /\ dict_get d "text" (PStr "") = PStr s) ->
  py_not (environ env !! "OPENAI_API_KEY") = true ->
  exists msg w' e0 transcript,
    run_session env fuel duration prefix w = (Raise (RuntimeError msg), w') /\
    capture_events env duration (prefix +:+ "_audio.wav")
      (prefix +:+ "_screen.avi") e0 /\
    trace w' = trace w ++ e0 ++
      [EvLoadModel "base"; EvRead (prefix +:+ "_audio.wav");
       EvOpenW (prefix +:+ "_transcript.txt")] /\
    files w' !! (prefix +:+ "_transcript.txt") = Some (CText transcript) /\
    now w + rec_time env <= now w'.
Proof.
  intros Hd Hmic Hwa Hwt Hload Hwhisper Hkey.
  destruct (run_session env fuel duration prefix w) as [r w'] eqn:E.
  unfold run_session in E.
  destruct (record_audio_and_screen_returns env (prefix +:+ "_audio.wav")
              (prefix +:+ "_screen.avi") duration w) as [w1 H1].
  destruct (tracks_record_audio_and_screen env (prefix +:+ "_audio.wav")
              (prefix +:+ "_screen.avi") duration w)
    as (e0 & Htr & [_ Hcap] & _ & Hpresent).
  rewrite H1 in Htr, Hpresent. cbn [snd] in Htr, Hpresent.
  assert (Haudio : is_Some (files w1 !! (prefix +:+ "_audio.wav"))).
  { apply Hpresent. by eapply capture_writes_audio. }
  destruct Haudio as [c Hc].
  destruct (capture_waits_for_audio _ _ _ _ _ _ Hd Hmic Hwa H1) as [_ Hnow].
  erewrite bind_ok in E by exact H1.
  destruct (Hwhisper c) as (d & s & Hrun & Htext).
  destruct (transcribe_ok env _ w1 c d Hload Hc Hrun) as [w2 H2].
  destruct (transcribe_inv _ _ _ _ _ _ H2) as (c' & d' & _ & _ & _ & ->).
  rewrite Htext in H2.
  erewrite bind_ok in E by exact H2.
  erewrite bind_ok in E by (by apply open_w_ok).
  erewrite bind_ok in E by reflexivity.
  match type of E with (summarize_text env ?t ?m ?md ≫= _) ?w3 = _ =>
    destruct (summarize_text_no_key env t m md w3 Hkey) as [msg H4]
  end.
  erewrite bind_raise in E by exact H4.
  injection E as <- <-. exists msg. eexists _, e0, s.
  split; [reflexivity|]. split; [done|]. world_simpl.
  split; [by rewrite Htr, <- !app_assoc|].
  split; [|done].
  rewrite lookup_alter_eq, lookup_insert_eq. reflexivity.
Qed.

Lemma run_session_missing_key_fails_late_witness :
  exists msg w' e0 transcript,
    run_session studio_without_key 3 1 "t" world0
      = (Raise (RuntimeError msg), w') /\
    capture_events studio_without_key 1 ("t" +:+ "_audio.wav")
      ("t" +:+ "_screen.avi") e0 /\
    trace w' = trace world0 ++ e0 ++
      [EvLoadModel "base"; EvRead ("t" +:+ "_audio.wav");
       EvOpenW ("t" +:+ "_transcript.txt")] /\
    files w' !! ("t" +:+ "_transcript.txt") = Some (CText transcript) /\
    now world0 + rec_time studio_without_key <= now w'.
Proof.
  apply (run_session_missing_key_fails_late studio_without_key 3 1 "t" world0).
  - lia.
  - reflexivity.
  - reflexivity.
  - reflexivity.
  - reflexivity.
  - intros c. by eexists _, _.
  - reflexivity.
Defined.

(** X25.  When the microphone is refused, [run_session] can return only
    if a file with the name of the audio file existed before the session:
    that file is left as it was, and it is this older file that is
    transcribed. *)
Theorem run_session_transcribes_stale_audio env fuel duration prefix w paths w' :
  mic_ok env default_fs default_channels = false ->
  run_session env fuel duration prefix w = (Ok paths, w') ->
  exists c d transcript,
    files w !! (prefix +:+ "_audio.wav") = Some c /\
    files w' !! (prefix +:+ "_audio.wav") = Some c /\
    whisper_run env c = Returns d /\
    default (PStr "") (d !! "text") = PStr transcript /\
    files w' !! (prefix +:+ "_transcript.txt") = Some (CText transcript).
Proof.
  intros Hmic H.
  apply run_session_inv in H
    as (w1 & c & d & transcript & key & summary & activity
        & H1 & Hc & Hd & Ht & _ & _ & _ & Hf & _).
  apply capture_without_microphone in H1; [|done|distinct_names].
  exists c, d, transcript. rewrite Hf. split; [by rewrite <- H1|].
  split.
  { rewrite !lookup_insert_ne by distinct_names. exact Hc. }
  do 2 (split; [done|]).
  rewrite !lookup_insert_ne by distinct_names. apply lookup_insert_eq.
Qed.

Lemma run_session_transcribes_stale_audio_witness :
  exists c d transcript,
    files world_with_audio !! ("t" +:+ "_audio.wav") = Some c /\
    files (snd (run_session studio_without_microphone 3 1 "t" world_with_audio))
      !! ("t" +:+ "_audio.wav") = Some c /\
    whisper_run studio_without_microphone c = Returns d /\
    default (PStr "") (d !! "text") = PStr transcript /\
    files (snd (run_session studio_without_microphone 3 1 "t" world_with_audio))
      !! ("t" +:+ "_transcript.txt") = Some (CText transcript).
Proof.
  apply (run_session_transcribes_stale_audio studio_without_microphone 3 1 "t"
           world_with_audio (returned_paths "t")).
  - reflexivity.
  - apply pair_with_snd. vm_compute. reflexivity.
Defined.
